(** * invoicecustoms-bot: the session workflow of [bot.py], embedded in Rocq

    The development follows the layout of [bot.py]:
    - [PyStr]: the [str] methods the bot calls ([strip], [removeprefix],
      [removesuffix], [startswith], [split], [join]);
    - [Json]: the values [json.loads] produces and the records the bot keeps;
    - [Bot]: session storage, the ticket generator, the extraction adapter
      and the Telegram handlers, written in a small monad that threads the
      session store, the messages sent and Python exceptions;
    - then the statements about them, and worked examples on a small
      runtime.

    Conventions.  A Python [str] is represented by its UTF-8 encoding, one
    [ascii] per byte.  A handler runs from start to end on the store it is
    given; what the outside world does during a handler is an argument of
    the handler: the answer of the extraction engine for [cmd_done], the
    downloaded picture for [handle_photo].  Sending a message is recorded
    and never fails.  The request [process_invoices] builds from the images
    is not part of the model, since the engine's answer is an input. *)

From Stdlib Require Import ZArith Ascii String List Lia SpecFloat.
From stdpp Require Import base option list gmap strings pretty.

Local Open Scope Z_scope.

(* ===================================================================== *)
(** ** Python string methods *)
(* ===================================================================== *)

Module PyStr.

Definition chars (s : string) : list ascii := list_ascii_of_string s.
Definition of_chars (l : list ascii) : string := string_of_list_ascii l.

Definition byte (n : nat) : ascii := ascii_of_nat n.

(** The code points for which [str.isspace] holds, as UTF-8 byte
    sequences: U+0009..U+000D, U+001C..U+0020, U+0085, U+00A0, U+1680,
    U+2000..U+200A, U+2028, U+2029, U+202F, U+205F, U+3000. *)
Definition whitespace : list (list ascii) :=
  map (fun n => [byte n]) [9; 10; 11; 12; 13; 28; 29; 30; 31; 32]%nat
  ++ map (map byte)
       [ [194; 133]; [194; 160]; [225; 154; 128];
         [226; 128; 128]; [226; 128; 129]; [226; 128; 130];
         [226; 128; 131]; [226; 128; 132]; [226; 128; 133];
         [226; 128; 134]; [226; 128; 135]; [226; 128; 136];
         [226; 128; 137]; [226; 128; 138]; [226; 128; 168];
         [226; 128; 169]; [226; 128; 175]; [226; 129; 159];
         [227; 128; 128] ]%nat.

Definition is_ws (w : list ascii) : bool :=
  bool_decide (w ∈ whitespace).

(** [lstrip_chars rv l] drops the white space [l] starts with.  With
    [rv = true] the bytes of [l] are in reverse order, as [rstrip] reads
    them from the end of the string. *)
Definition oriented (rv : bool) (w : list ascii) : list ascii :=
  if rv then rev w else w.

Fixpoint lstrip_chars (rv : bool) (l : list ascii) : list ascii :=
  match l with
  | [] => []
  | c :: l1 =>
      if is_ws [c] then lstrip_chars rv l1 else
      match l1 with
      | [] => l
      | d :: l2 =>
          if is_ws (oriented rv [c; d]) then lstrip_chars rv l2 else
          match l2 with
          | [] => l
          | e :: l3 =>
              if is_ws (oriented rv [c; d; e]) then lstrip_chars rv l3 else l
          end
      end
  end.

Definition lstrip (s : string) : string :=
  of_chars (lstrip_chars false (chars s)).

Definition rstrip (s : string) : string :=
  of_chars (rev (lstrip_chars true (rev (chars s)))).

(** [s.strip()] *)
Definition strip (s : string) : string := rstrip (lstrip s).

(** [drop_prefix p s] is [Some r] when [s = p ++ r]. *)
Fixpoint drop_prefix (p s : list ascii) : option (list ascii) :=
  match p, s with
  | [], _ => Some s
  | a :: p', b :: s' => if bool_decide (a = b) then drop_prefix p' s' else None
  | _ :: _, [] => None
  end.

(** [s.startswith(p)] *)
Definition startswith (s p : string) : bool :=
  bool_decide (is_Some (drop_prefix (chars p) (chars s))).

(** [s.removeprefix(p)] *)
Definition removeprefix (s p : string) : string :=
  match drop_prefix (chars p) (chars s) with
  | Some r => of_chars r
  | None => s
  end.

(** [s.removesuffix(p)] *)
Definition removesuffix (s p : string) : string :=
  match drop_prefix (rev (chars p)) (rev (chars s)) with
  | Some r => of_chars (rev r)
  | None => s
  end.

(** [s.split(sep)] for a one-character separator *)
Fixpoint split_chars (sep : ascii) (cur : list ascii) (l : list ascii)
  : list (list ascii) :=
  match l with
  | [] => [rev cur]
  | c :: l' =>
      if bool_decide (c = sep) then rev cur :: split_chars sep [] l'
      else split_chars sep (c :: cur) l'
  end.

Definition split (s : string) (sep : ascii) : list string :=
  map of_chars (split_chars sep [] (chars s)).

(** [sep.join(l)] *)
Fixpoint join (sep : string) (l : list string) : string :=
  match l with
  | [] => EmptyString
  | [x] => x
  | x :: l' => x +:+ sep +:+ join sep l'
  end.

(** [p in s] for strings *)
Definition contains (s p : string) : Prop :=
  ∃ before after : string, s = before +:+ p +:+ after.

End PyStr.

(* ===================================================================== *)
(** ** JSON values and shipment records *)
(* ===================================================================== *)

Module Json.

#[local] Set Warnings "-register-all".

(** The result type of [json.loads]: [None], [bool], [int], [float],
    [str], [list] and [dict] with [str] keys. *)
Inductive json : Type :=
| JNull
| JBool (b : bool)
| JInt (n : Z)
| JFloat (f : SpecFloat.spec_float)
| JStr (s : string)
| JArr (l : list json)
| JObj (m : gmap string json).

(** A shipment is a Python [dict]. *)
Abbreviation dict := (gmap string json).

(** Truth value of a Python object, as [if x:] and [x and y] test it. *)
Definition truthy (v : json) : bool :=
  match v with
  | JNull => false
  | JBool b => b
  | JInt n => negb (n =? 0)
  | JFloat (SpecFloat.S754_zero _) => false
  | JFloat _ => true
  | JStr s => negb (bool_decide (s = EmptyString))
  | JArr l => negb (bool_decide (length l = 0%nat))
  | JObj m => negb (bool_decide (size m = 0%nat))
  end.

(** [v == lit] for a string literal [lit]. *)
Definition eq_str (v : json) (lit : string) : bool :=
  match v with
  | JStr s => bool_decide (s = lit)
  | _ => false
  end.

(** [data.get(key, default)] with a string default. *)
Definition get (data : dict) (key default : string) : json :=
  match data !! key with
  | Some v => v
  | None => JStr default
  end.

(** [data.get(key)]: [None] when the key is missing. *)
Definition get_none (data : dict) (key : string) : json :=
  match data !! key with
  | Some v => v
  | None => JNull
  end.

End Json.

(* ===================================================================== *)
(** ** Sessions, messages and the handler monad *)
(* ===================================================================== *)

Module Bot.
Import PyStr Json.

(** [session["phase"]] only ever holds ["collecting"] or ["review"]. *)
Inductive phase := collecting | review.

(** [{"images": [...], "phase": "...", "shipments": [...]}] *)
Record session := Session {
  images : list string;
  phase_of : phase;
  shipments : list dict
}.

(** The module-level [sessions] dictionary, keyed by user id. *)
Abbreviation store := (gmap Z session).

Definition fresh : session :=
  {| images := []; phase_of := collecting; shipments := [] |}.

(** Python exceptions the handlers can meet.  [EngineError] stands for
    whatever [client.messages.create] raises, [TelegramError] for a failed
    photo download. *)
Inductive exn :=
| ValueError | TypeError | IndexError | KeyError | AttributeError
| EngineError | TelegramError.

Inductive parse_mode := Plain | Markdown | MarkdownV2.

Inductive button :=
| UrlButton (label url : string)
| CallbackButton (label data : string).

(** What a handler sends to Telegram. *)
Inductive effect :=
| ReplyText (text : string) (mode : parse_mode)
| ReplyCard (text : string) (keyboard : list (list button))
| AnswerQuery
| RemoveKeyboard
| EditText (text : string).

(** A handler step: it reads and updates the store, sends messages, and
    either returns or raises.  Updates made before an exception stay. *)
Definition M (A : Type) : Type := store → store * list effect * (exn + A).

Definition ret {A} (a : A) : M A := λ st, (st, [], inr a).

Definition bind {A B} (m : M A) (k : A → M B) : M B := λ st,
  match m st with
  | (st1, out1, inl e) => (st1, out1, inl e)
  | (st1, out1, inr a) =>
      match k a st1 with
      | (st2, out2, r) => (st2, out1 ++ out2, r)
      end
  end.

Definition raise {A} (e : exn) : M A := λ st, (st, [], inl e).

Definition send (e : effect) : M unit := λ st, (st, [e], inr tt).

Definition lift {A} (r : exn + A) : M A := λ st, (st, [], r).

(** [try: body / except <handled>: handler] *)
Definition try_except {A} (body : M A) (handled : exn → bool)
    (handler : M A) : M A := λ st,
  match body st with
  | (st1, out1, inl e) =>
      if handled e then
        match handler st1 with
        | (st2, out2, r) => (st2, out1 ++ out2, r)
        end
      else (st1, out1, inl e)
  | r => r
  end.

Notation "'let*' x ':=' m 'in' k" := (bind m (λ x, k))
  (at level 10, x name, m at level 100, k at level 200, only parsing).
Notation "m ;;; k" := (bind m (λ _, k))
  (at level 100, k at level 200, right associativity, only parsing).

(** [for x in l: body(x)] *)
Fixpoint for_each {A} (l : list A) (body : A → M unit) : M unit :=
  match l with
  | [] => ret tt
  | x :: l' => body x ;;; for_each l' body
  end.

(** [l[i]] with Python's negative indices: the position read, if any. *)
Definition py_index {A} (l : list A) (i : Z) : option nat :=
  let n := Z.of_nat (length l) in
  if (0 <=? i) && (i <? n) then Some (Z.to_nat i)
  else if (i <? 0) && (0 <=? i + n) then Some (Z.to_nat (i + n))
  else None.

(** *** Session storage *)

Definition get_session (user_id : Z) : M session := λ st,
  match st !! user_id with
  | Some s => (st, [], inr s)
  | None => (<[user_id := fresh]> st, [], inr fresh)
  end.

Definition clear_session (user_id : Z) : M unit := λ st,
  (<[user_id := fresh]> st, [], inr tt).

(** The handlers hold a reference to [sessions[user_id]]: an assignment
    to one of its keys updates the stored record. *)
Definition update (user_id : Z) (f : session → session) : M unit := λ st,
  (alter f user_id st, [], inr tt).

Definition current (user_id : Z) : M session := λ st,
  (st, [], inr (default fresh (st !! user_id))).

Definition set_phase (p : phase) (s : session) : session :=
  {| images := images s; phase_of := p; shipments := shipments s |}.
Definition set_images (l : list string) (s : session) : session :=
  {| images := l; phase_of := phase_of s; shipments := shipments s |}.
Definition set_shipments (l : list dict) (s : session) : session :=
  {| images := images s; phase_of := phase_of s; shipments := l |}.

(** [session["shipments"][idx][key] = v] *)
Definition set_field (user_id : Z) (idx : Z) (key : string) (v : json)
  : M unit :=
  let* s := current user_id in
  match py_index (shipments s) idx with
  | None => raise IndexError
  | Some k =>
      update user_id (set_shipments (alter (insert key v) k (shipments s)))
  end.

(** The session a user sees, whether or not it was created yet. *)
Definition session_of (st : store) (user_id : Z) : session :=
  default fresh (st !! user_id).


(** *** The interpreter and the configuration

    [int], [str] on values that are not strings and [json.loads] belong
    to the Python runtime; the handlers are written over any
    implementation of them.  [None] stands for the [ValueError] that
    [int] and [json.loads] raise on text they do not accept. *)
Class Builtins := {
  py_int : string → option Z;
  py_str : json → string;
  json_loads : string → option json
}.

(** [ALLOWED_USERS], read from the environment; the empty string when the
    variable is not set. *)
Class Config := { ALLOWED_USERS : string }.

Section Handlers.
Context {rt : Builtins} {cfg : Config}.

Definition nl : string := String (byte 10) EmptyString.

(** [f"{v}"] *)
Definition fmt (v : json) : string :=
  match v with
  | JStr s => s
  | _ => py_str v
  end.

(** [f"{n}"] for an [int] *)
Definition fmt_int (n : Z) : string := pretty n.

Definition int (s : string) : exn + Z :=
  match py_int s with
  | Some n => inr n
  | None => inl ValueError
  end.

(** [[int(x.strip()) for x in xs if x.strip()]] *)
Fixpoint parse_ids (xs : list string) : exn + list Z :=
  match xs with
  | [] => inr []
  | x :: xs' =>
      if bool_decide (strip x = EmptyString) then parse_ids xs'
      else
        match int (strip x) with
        | inl e => inl e
        | inr n =>
            match parse_ids xs' with
            | inl e => inl e
            | inr ns => inr (n :: ns)
            end
        end
  end.

Definition is_allowed (user_id : Z) : exn + bool :=
  if bool_decide (ALLOWED_USERS = EmptyString) then inr true
  else
    match parse_ids (split ALLOWED_USERS ",") with
    | inl e => inl e
    | inr allowed => inr (bool_decide (user_id ∈ allowed))
    end.

(** *** Ticket generation *)

Definition generate_ticket (data : dict) (approved : json) : string :=
  let order := get data "orderNumber" "______" in
  let shipper := get data "shipper" "N/A" in
  let country := get data "shipperCountry" EmptyString in
  let goods := get data "goodsDescription" "N/A" in
  let declared := get data "declaredValue" "N/A" in
  let duty := get data "dutyAmount" "N/A" in
  let fee := get data "entryPrepFee" "N/A" in
  let total := get data "totalCharges" "N/A" in
  let header :=
    "Здравствуйте!" +:+ nl +:+ nl +:+
    "По вашему заказу № " +:+ fmt order +:+ " " +:+
    "(посылка от отправителя " +:+ fmt shipper +:+ ", " +:+
      fmt country +:+ ") " +:+
    "была начислена таможенная пошлина." in
  let details :=
    nl +:+ nl +:+ "Детали:" +:+ nl +:+
    "- Описание товара: " +:+ fmt goods +:+ nl +:+
    "- Объявленная стоимость: $" +:+ fmt declared +:+ nl +:+
    "- Пошлина (Duty): $" +:+ fmt duty +:+ nl +:+
    "- Сбор за оформление (Entry Prep Fee): $" +:+ fmt fee +:+ nl +:+
    "- Итого " +:+ (if truthy approved then "оплачено" else "к оплате")
      +:+ ": $" +:+ fmt total +:+ " USD" in
  let footer :=
    if truthy approved then
      nl +:+ nl +:+ "Сумма была списана с вашего баланса." +:+
      nl +:+ nl +:+ "Если у вас есть вопросы — напишите нам."
    else
      nl +:+ nl +:+ "Списание средств не производилось, так как оплата пошлины не была согласована." +:+
      nl +:+ "Пожалуйста, подтвердите оплату или свяжитесь с нами для уточнения." +:+
      nl +:+ nl +:+ "Если у вас есть вопросы — напишите нам." in
  header +:+ details +:+ footer.

(** *** AI processing *)

(** [message.content]: a block with a [text] attribute or without. *)
Inductive block := TextBlock (text : string) | OtherBlock.

(** What [client.messages.create] does: it raises, or it returns a
    message. *)
Inductive engine_reply := EngineRaises | EngineMessage (content : list block).

Definition message_text (content : list block) : string :=
  fold_left (λ text b, match b with
                       | TextBlock t => text +:+ t
                       | OtherBlock => text
                       end) content EmptyString.

(** [text.strip().removeprefix("```json").removeprefix("```")
         .removesuffix("```").strip()] *)
Definition unfence (text : string) : string :=
  strip (removesuffix
           (removeprefix (removeprefix (strip text) "```json") "```")
           "```").

Definition process_invoices (reply : engine_reply) : exn + list json :=
  match reply with
  | EngineRaises => inl EngineError
  | EngineMessage content =>
      match json_loads (unfence (message_text content)) with
      | None => inl ValueError
      | Some (JArr l) => inr l
      | Some parsed => inr [parsed]
      end
  end.

(** *** Handlers *)

(** The texts of the replies that report a refusal or the progress of
    [/done]. *)
Definition access_denied : string := "⛔ У вас нет доступа к этому боту.".
Definition no_photos : string :=
  "❌ Нет загруженных фото. Отправьте фото инвойсов.".
Definition analyzing (count : Z) : string :=
  "⏳ Анализирую " +:+ fmt_int count +:+ " фото... Подождите.".
Definition recognition_failed : string :=
  "❌ Ошибка при распознавании. Проверьте качество фото и попробуйте снова.".
Definition found_one : string :=
  "✅ Найдена 1 посылка" +:+ nl +:+ nl +:+
  "Укажите номер заказа: `/order 1 ABC123`" +:+ nl +:+
  "Сгенерировать тикет: /tickets".
Definition not_found (idx : Z) : string :=
  "❌ Посылка с номером " +:+ fmt_int (idx + 1) +:+ " не найдена.".
Definition no_shipments : string :=
  "❌ Нет распознанных посылок. Отправьте фото и нажмите /done".

Definition cmd_start (user_id : Z) : M unit :=
  let* allowed := lift (is_allowed user_id) in
  if negb allowed then send (ReplyText access_denied Plain)
  else
    clear_session user_id ;;;
    send (ReplyText
      ("📦 *Invoice Processor Bot*" +:+ nl +:+ nl +:+
       "Отправьте мне фото инвойсов \(можно несколько\)\." +:+ nl +:+
       "Когда все фото загружены — нажмите /done" +:+ nl +:+ nl +:+
       "Команды:" +:+ nl +:+
       "/done — распознать загруженные фото" +:+ nl +:+
       "/clear — очистить и начать заново" +:+ nl +:+
       "/help — справка") MarkdownV2).

Definition cmd_help : M unit :=
  send (ReplyText
    ("📖 *Как пользоваться:*" +:+ nl +:+ nl +:+
     "1\. Отправьте фото инвойсов \(все страницы всех посылок\)" +:+ nl +:+
     "2\. Нажмите /done" +:+ nl +:+
     "3\. Бот сгруппирует по посылкам и покажет:" +:+ nl +:+
     "   💳 Данные для оплаты" +:+ nl +:+
     "   📝 Готовый тикет" +:+ nl +:+ nl +:+
     "Для каждой посылки можно указать номер заказа " +:+
     "и выбрать согласована ли оплата\.") MarkdownV2).

Definition cmd_clear (user_id : Z) : M unit :=
  clear_session user_id ;;;
  send (ReplyText "🗑 Очищено. Отправляйте новые фото инвойсов." Plain).

(** [photo] is the downloaded picture, base64-encoded; [None] when
    [get_file] or [download_to_memory] raises. *)
Definition handle_photo (user_id : Z) (photo : option string) : M unit :=
  let* allowed := lift (is_allowed user_id) in
  if negb allowed then ret tt
  else
    let* session := get_session user_id in
    (match phase_of session with
     | collecting => ret tt
     | review =>
         update user_id (set_phase collecting) ;;;
         update user_id (set_images []) ;;;
         update user_id (set_shipments [])
     end) ;;;
    match photo with
    | None => raise TelegramError
    | Some img_b64 =>
        update user_id (λ s, set_images (images s ++ [img_b64]) s) ;;;
        let* session := current user_id in
        let count := Z.of_nat (length (images session)) in
        send (ReplyText
          ("✅ Фото " +:+ fmt_int count +:+ " загружено." +:+ nl +:+
           "Отправьте ещё фото или нажмите /done для распознавания.")
          Plain)
    end.

Definition send_shipment_card (user_id : Z) (idx : nat) : M unit :=
  let* session := current user_id in
  match shipments session !! idx with
  | None => raise IndexError
  | Some s =>
      let num := Z.of_nat idx + 1 in
      let payment_text :=
        "📦 *Посылка " +:+ fmt_int num +:+ "* — " +:+
          fmt (get s "shipper" "N/A") +:+ nl +:+
        "━━━━━━━━━━━━━━━" +:+ nl +:+ nl +:+
        "💳 *ДАННЫЕ ДЛЯ ОПЛАТЫ:*" +:+ nl +:+
        "├ Инвойс: `" +:+ fmt (get s "invoiceNumber" "N/A") +:+ "`" +:+ nl +:+
        "├ Сумма: *$" +:+ fmt (get s "totalCharges" "N/A") +:+ " USD*" +:+ nl +:+
        "├ Трек: `" +:+ fmt (get s "trackingNumber" "N/A") +:+ "`" +:+ nl in
      let payment_text :=
        if truthy (get_none s "shipmentId")
           && negb (eq_str (get_none s "shipmentId") "N/A")
        then payment_text +:+ "├ Shipment ID: `" +:+
               fmt (get_none s "shipmentId") +:+ "`" +:+ nl
        else payment_text in
      let payment_text :=
        payment_text +:+
        "└ Перевозчик: " +:+ fmt (get s "carrier" "N/A") +:+ nl +:+ nl +:+
        "📋 *ДЕТАЛИ:*" +:+ nl +:+
        "├ Отправитель: " +:+ fmt (get s "shipper" "N/A") +:+ ", " +:+
          fmt (get s "shipperCountry" EmptyString) +:+ nl +:+
        "├ Товар: " +:+ fmt (get s "goodsDescription" "N/A") +:+ nl +:+
        "├ Стоимость: $" +:+ fmt (get s "declaredValue" "N/A") +:+ nl +:+
        "├ Пошлина: $" +:+ fmt (get s "dutyAmount" "N/A") +:+ nl +:+
        "├ Сбор: $" +:+ fmt (get s "entryPrepFee" "N/A") +:+ nl +:+
        "└ *Итого: $" +:+ fmt (get s "totalCharges" "N/A") +:+ " USD*" +:+ nl in
      let payment_text :=
        if truthy (get_none s "notes")
           && negb (eq_str (get_none s "notes") "N/A")
        then payment_text +:+ nl +:+ "⚠️ " +:+
               fmt (get_none s "notes") +:+ nl
        else payment_text in
      let choice :=
        [ [ CallbackButton "✅ Оплата согласована"
              ("approve_" +:+ fmt_int (Z.of_nat idx));
            CallbackButton "❌ Не согласована"
              ("reject_" +:+ fmt_int (Z.of_nat idx)) ];
          [ CallbackButton "📝 Сгенерировать тикет"
              ("ticket_" +:+ fmt_int (Z.of_nat idx)) ] ] in
      let url := get s "paymentUrl" "N/A" in
      if truthy url && negb (eq_str url "N/A") then
        match url with
        | JStr u =>
            let u := if startswith u "http" then u else "https://" +:+ u in
            send (ReplyCard payment_text
                    ([UrlButton "🌐 Перейти к оплате" u] :: choice))
        | _ => raise AttributeError
        end
      else send (ReplyCard payment_text choice)
  end.

(** [s["orderNumber"]] is set to the empty string and
    [s["paymentApproved"]] to [True], which only a
    [dict] accepts. *)
Definition new_shipment (s : json) : exn + dict :=
  match s with
  | JObj d =>
      inr (<["paymentApproved" := JBool true]>
             (<["orderNumber" := JStr EmptyString]> d))
  | _ => inl TypeError
  end.

(** The [try] block of [cmd_done]. *)
Definition cmd_done_try (user_id : Z) (reply : engine_reply) : M unit :=
  let* drafts := lift (process_invoices reply) in
  update user_id (set_shipments []) ;;;
  for_each drafts (λ s,
    let* d := lift (new_shipment s) in
    update user_id (λ ses, set_shipments (shipments ses ++ [d]) ses)) ;;;
  update user_id (set_phase review) ;;;
  let* session := current user_id in
  for_each (seq 0 (length (shipments session)))
    (send_shipment_card user_id) ;;;
  if bool_decide (1 < length (shipments session))%nat then
    send (ReplyText
      ("✅ Найдено посылок: " +:+
         fmt_int (Z.of_nat (length (shipments session))) +:+
         nl +:+ nl +:+
       "Для каждой посылки укажите номер заказа командой:" +:+ nl +:+
       "`/order 1 ABC123`" +:+ nl +:+
       "где 1 — номер посылки, ABC123 — номер заказа" +:+ nl +:+ nl +:+
       "Для генерации тикетов: /tickets") Markdown)
  else send (ReplyText found_one Markdown).

Definition cmd_done (user_id : Z) (reply : engine_reply) : M unit :=
  let* allowed := lift (is_allowed user_id) in
  if negb allowed then ret tt
  else
    let* session := get_session user_id in
    if bool_decide (images session = []) then
      send (ReplyText no_photos Plain)
    else
      let count := Z.of_nat (length (images session)) in
      send (ReplyText (analyzing count) Plain) ;;;
      (* try: ... except Exception as e: ... *)
      try_except (cmd_done_try user_id reply) (λ _, true)
        (send (EditText recognition_failed)).

(** [int(data.split("_")[1])] *)
Definition callback_index (data : string) : exn + Z :=
  match split data "_" !! 1%nat with
  | None => inl IndexError
  | Some x => int x
  end.

Definition handle_callback (user_id : Z) (data : string) : M unit :=
  send AnswerQuery ;;;
  let* session := get_session user_id in
  if startswith data "approve_" then
    let* idx := lift (callback_index data) in
    if bool_decide (idx < Z.of_nat (length (shipments session))) then
      set_field user_id idx "paymentApproved" (JBool true) ;;;
      send RemoveKeyboard ;;;
      send (ReplyText ("✅ Посылка " +:+ fmt_int (idx + 1) +:+
                       ": оплата отмечена как согласованная") Plain)
    else ret tt
  else if startswith data "reject_" then
    let* idx := lift (callback_index data) in
    if bool_decide (idx < Z.of_nat (length (shipments session))) then
      set_field user_id idx "paymentApproved" (JBool false) ;;;
      send RemoveKeyboard ;;;
      send (ReplyText ("❌ Посылка " +:+ fmt_int (idx + 1) +:+
                       ": оплата отмечена как НЕ согласованная") Plain)
    else ret tt
  else if startswith data "ticket_" then
    let* idx := lift (callback_index data) in
    if bool_decide (idx < Z.of_nat (length (shipments session))) then
      match py_index (shipments session) idx with
      | None => raise IndexError
      | Some k =>
          match shipments session !! k with
          | None => raise IndexError
          | Some s =>
              match s !! "paymentApproved" with
              | None => raise KeyError
              | Some approved =>
                  let ticket := generate_ticket s approved in
                  send (ReplyText
                    ("📝 *Тикет — Посылка " +:+ fmt_int (idx + 1) +:+ ":*" +:+
                     nl +:+ nl +:+ "`" +:+ ticket +:+ "`") Markdown)
              end
          end
      end
    else ret tt
  else ret tt.

Definition cmd_order (user_id : Z) (args : list string) : M unit :=
  let* allowed := lift (is_allowed user_id) in
  if negb allowed then ret tt
  else
    let* session := get_session user_id in
    match args with
    | [] | [_] =>
        send (ReplyText
          ("Формат: `/order 1 ABC123`" +:+ nl +:+
           "где 1 — номер посылки, ABC123 — номер заказа") Markdown)
    | first :: rest =>
        try_except
          (let* n := lift (int first) in
           let idx := n - 1 in
           let order_num := join " " rest in
           if bool_decide (0 ≤ idx) && bool_decide (idx < Z.of_nat (length (shipments session))) then
             set_field user_id idx "orderNumber" (JStr order_num) ;;;
             send (ReplyText
               ("✅ Посылка " +:+ fmt_int (idx + 1) +:+
                ": номер заказа установлен → `" +:+ order_num +:+ "`")
               Markdown)
           else
             send (ReplyText (not_found idx) Plain))
          (λ e, match e with ValueError => true | _ => false end)
          (send (ReplyText
             "❌ Неверный формат. Используйте: `/order 1 ABC123`" Markdown))
    end.

(** The body of the [for] loop of [cmd_tickets]. *)
Definition send_ticket (i : nat) (s : dict) : M unit :=
  match s !! "paymentApproved" with
  | None => raise KeyError
  | Some approved =>
      let ticket := generate_ticket s approved in
      send (ReplyText
        ("📝 *Тикет — Посылка " +:+ fmt_int (Z.of_nat i + 1) +:+ " \(" +:+
           fmt (get s "shipper" "N/A") +:+ "\):*" +:+ nl +:+ nl +:+
         "`" +:+ ticket +:+ "`") MarkdownV2)
  end.

Definition cmd_tickets (user_id : Z) : M unit :=
  let* allowed := lift (is_allowed user_id) in
  if negb allowed then ret tt
  else
    let* session := get_session user_id in
    if bool_decide (shipments session = []) then
      send (ReplyText no_shipments Plain)
    else
      for_each (imap pair (shipments session))
        (λ '(i, s), send_ticket i s).

(** *** Main

    [main] registers one handler per kind of update.  A request carries
    what its handler reads from the update and, for [/done] and a photo,
    what the outside world answers while the handler runs. *)
Inductive request :=
| Start
| Help
| Clear
| Done (reply : engine_reply)
| Order (args : list string)
| Tickets
| Photo (photo : option string)
| Button (data : string).

Definition handle (user_id : Z) (r : request) : M unit :=
  match r with
  | Start => cmd_start user_id
  | Help => cmd_help
  | Clear => cmd_clear user_id
  | Done reply => cmd_done user_id reply
  | Order args => cmd_order user_id args
  | Tickets => cmd_tickets user_id
  | Photo photo => handle_photo user_id photo
  | Button data => handle_callback user_id data
  end.

(** The store after the requests of [log], oldest first, each with the
    user who sent it. *)
Fixpoint replay (log : list (Z * request)) (st : store) : store :=
  match log with
  | [] => st
  | (user_id, r) :: log' => replay log' (handle user_id r st).1.1
  end.

End Handlers.

End Bot.

(* ===================================================================== *)
(** ** Vocabulary of the statements *)
(* ===================================================================== *)

Import PyStr Json Bot.

(** The bytes 33..126: ASCII characters that are visible. *)
Definition printable (c : ascii) : bool :=
  (33 <=? nat_of_ascii c)%nat && (nat_of_ascii c <=? 126)%nat.

(** A string made of white space only. *)
Definition blank (w : string) : Prop :=
  ∃ ws, Forall (λ c, c ∈ whitespace) ws ∧ chars w = concat ws.

Definition head_printable (s : string) : Prop :=
  ∃ a t, s = String a t ∧ printable a = true.
Definition last_printable (s : string) : Prop :=
  ∃ i z, s = i +:+ String z EmptyString ∧ printable z = true.

(** [s] does not start with the character [c]. *)
Definition starts_off (c : ascii) (s : string) : Prop :=
  match s with
  | String a _ => a ≠ c
  | EmptyString => True
  end.
Definition ends_off (c : ascii) (s : string) : Prop :=
  match rev (chars s) with
  | a :: _ => a ≠ c
  | [] => True
  end.

(** The text of a JSON array or object: it starts with a bracket or a
    brace and ends with one. *)
Definition array_or_object (body : string) : Prop :=
  (∃ t, body = "[" +:+ t ∨ body = "{" +:+ t)
  ∧ (∃ i, body = i +:+ "]" ∨ body = i +:+ "}").

(** The store once [get_session user_id] has run: the session of
    [user_id] is stored, created if it was not there. *)
Definition touch (user_id : Z) (st : store) : store :=
  <[user_id := session_of st user_id]> st.

(** An approve or reject button carries the flag it sets. *)
Definition approval_button (data : string) (v : bool) : Prop :=
  (startswith data "approve_" = true ∧ v = true)
  ∨ (startswith data "approve_" = false
     ∧ startswith data "reject_" = true ∧ v = false).

(** A draft once [cmd_done] has set its two operator fields. *)
Definition augmented (d : dict) : dict :=
  <["paymentApproved" := JBool true]> (<["orderNumber" := JStr EmptyString]> d).

(** A step that leaves the store as it finds it. *)
Definition quiet {A} (m : M A) : Prop := ∀ st, (m st).1.1 = st.

(** The drafts at the front of the list that are objects, and whether all
    of them are. *)
Fixpoint object_prefix (drafts : list json) : list dict :=
  match drafts with
  | JObj d :: rest => d :: object_prefix rest
  | _ => []
  end.

Fixpoint all_objects (drafts : list json) : bool :=
  match drafts with
  | [] => true
  | JObj _ :: rest => all_objects rest
  | _ => false
  end.

(** The ways one request can change the session of the user who sent it. *)
Inductive change : session → session → Prop :=
| change_keep s :
    change s s
| change_reset s :
    change s fresh
| change_add_image s img :
    phase_of s = collecting →
    change s (set_images (images s ++ [img]) s)
| change_restart s imgs :
    phase_of s = review →
    change s {| images := imgs; phase_of := collecting; shipments := [] |}
| change_commit s ds :
    images s ≠ [] →
    change s {| images := images s; phase_of := review;
                shipments := augmented <$> ds |}
| change_commit_part s ds :
    change s (set_shipments (augmented <$> ds) s)
| change_approval s k b :
    change s (set_shipments
                (alter (insert "paymentApproved" (JBool b)) k (shipments s)) s)
| change_order s k o :
    change s (set_shipments
                (alter (insert "orderNumber" (JStr o)) k (shipments s)) s).

(** What a request of [user_id] may do to the store: nothing to the
    entries of other users, and one [change] to the session of [user_id]. *)
Definition moves (user_id : Z) (st st' : store) : Prop :=
  (∀ u, u ≠ user_id → st' !! u = st !! u)
  ∧ change (session_of st user_id) (session_of st' user_id).

(** A shipment as the handlers keep it: a boolean approval flag and a
    string order number. *)
Definition shipment_ok (d : dict) : Prop :=
  (∃ b, d !! "paymentApproved" = Some (JBool b))
  ∧ (∃ o, d !! "orderNumber" = Some (JStr o)).

(** What holds of every session the handlers can produce. *)
Definition session_ok (s : session) : Prop :=
  (phase_of s = review → images s ≠ [])
  ∧ Forall shipment_ok (shipments s).

(** The characters of a decimal numeral: a digit or the minus sign. *)
Definition decimal_char (c : ascii) : bool :=
  bool_decide (c = "-"%char)
  || ((48 <=? nat_of_ascii c)%nat && (nat_of_ascii c <=? 57)%nat).

(** The message [cmd_tickets] sends for the shipment at position [i]. *)
Definition ticket_reply {rt : Builtins} (i : nat) (d : dict) : effect :=
  ReplyText
    ("📝 *Тикет — Посылка " +:+ fmt_int (Z.of_nat i + 1) +:+ " \(" +:+
       fmt (get d "shipper" "N/A") +:+ "\):*" +:+ nl +:+ nl +:+
     "`" +:+ generate_ticket d (get_none d "paymentApproved") +:+ "`")
    MarkdownV2.

(* ===================================================================== *)
(** ** A runtime to run the handlers on concrete inputs *)
(* ===================================================================== *)

Module Sample.
Import PyStr Json Bot.

Definition digit (c : ascii) : option Z :=
  let n := Z.of_nat (nat_of_ascii c) in
  if (48 <=? n) && (n <=? 57) then Some (n - 48) else None.

Fixpoint digits (acc : Z) (l : list ascii) : option Z :=
  match l with
  | [] => Some acc
  | c :: l' =>
      match digit c with
      | Some d => digits (10 * acc + d) l'
      | None => None
      end
  end.

(** [int] on an optional sign followed by ASCII digits. *)
Definition int_decimal (s : string) : option Z :=
  match chars s with
  | [] => None
  | c :: l =>
      if bool_decide (c = "-"%char) then
        match l with [] => None | _ => Z.opp <$> digits 0 l end
      else if bool_decide (c = "+"%char) then
        match l with [] => None | _ => digits 0 l end
      else digits 0 (c :: l)
  end.

(** [str] on [None], [bool] and [int]. *)
Definition str_simple (v : json) : string :=
  match v with
  | JNull => "None"
  | JBool true => "True"
  | JBool false => "False"
  | JInt n => pretty n
  | JStr s => s
  | _ => "..."
  end.

(** [json.loads] on the four texts the examples use. *)
Definition loads (text : string) : option json :=
  if bool_decide (text = "[]") then Some (JArr [])
  else if bool_decide (text = "{}") then Some (JObj ∅)
  else if bool_decide (text = "[{}, 5]") then Some (JArr [JObj ∅; JInt 5])
  else if bool_decide (text = "[{}]") then Some (JArr [JObj ∅])
  else None.

Definition runtime : Builtins :=
  {| py_int := int_decimal; py_str := str_simple; json_loads := loads |}.

(** [ALLOWED_USERS="1"] and the unset variable. *)
Definition only_user_1 : Config := {| ALLOWED_USERS := "1" |}.
Definition everyone : Config := {| ALLOWED_USERS := EmptyString |}.

(** Stores the examples start from: user 7 with one photo and nothing
    recognized yet, and user 7 reviewing one shipment. *)
Definition one_shipment : dict :=
  {[ "shipper" := JStr "ACME";
     "orderNumber" := JStr EmptyString;
     "paymentApproved" := JBool true ]}.

Definition collecting_one : store :=
  {[ 7 := {| images := ["img"]; phase_of := collecting; shipments := [] |} ]}.

Definition reviewing : store :=
  {[ 7 := {| images := ["img"]; phase_of := review;
             shipments := [one_shipment] |} ]}.

End Sample.

(** Further inputs for the examples: an answer whose draft holds a number
    as payment URL, and allow-lists with and without a malformed entry. *)
Module SampleMore.
Import PyStr Json Bot.

Definition quote : string := String (byte 34) EmptyString.

(** The JSON text of an array with one object whose ["paymentUrl"] is the
    number 5. *)
Definition url_text : string :=
  "[{" +:+ quote +:+ "paymentUrl" +:+ quote +:+ ": 5}]".

Definition loads (text : string) : option json :=
  if bool_decide (text = url_text)
  then Some (JArr [JObj {[ "paymentUrl" := JInt 5 ]}])
  else Sample.loads text.

Definition runtime : Builtins :=
  {| py_int := Sample.int_decimal; py_str := Sample.str_simple;
     json_loads := loads |}.

Definition users_1_22 : Config := {| ALLOWED_USERS := "1,22" |}.
Definition users_1_abc : Config := {| ALLOWED_USERS := "1,abc" |}.

(** User 7 reviewing two shipments, the second with a payment link. *)
Definition second_shipment : dict :=
  {[ "shipper" := JStr "Globex";
     "paymentUrl" := JStr "pay.example.com/42";
     "orderNumber" := JStr EmptyString;
     "paymentApproved" := JBool true ]}.

Definition reviewing_two : store :=
  {[ 7 := {| images := ["img"]; phase_of := review;
             shipments := [Sample.one_shipment; second_shipment] |} ]}.

End SampleMore.


(* ===================================================================== *)
(** ** Facts about the string methods *)
(* ===================================================================== *)

(** [x ∈ [a; b; ...]] for closed lists: found by search, refuted by
    exhausting the list. *)
Ltac listed := repeat first [apply list_elem_of_here | apply list_elem_of_further].
Ltac not_listed :=
  match goal with
  | H : _ ∈ _ |- _ =>
      repeat (apply elem_of_cons in H as [H|H]; [discriminate H|]);
      by apply elem_of_nil in H
  end.

Section StringFacts.

Lemma append_cons (x : ascii) (a b : string) :
  String x a +:+ b = String x (a +:+ b).
Proof. reflexivity. Qed.

Lemma append_assoc (a b c : string) : (a +:+ b) +:+ c = a +:+ (b +:+ c).
Proof.
  induction a as [|x a IH]; [reflexivity |].
  rewrite !append_cons. by f_equal.
Qed.

Lemma append_nil_r (a : string) : a +:+ EmptyString = a.
Proof.
  induction a as [|x a IH]; [reflexivity |].
  rewrite append_cons. by f_equal.
Qed.

Lemma chars_app (a b : string) : chars (a +:+ b) = chars a ++ chars b.
Proof.
  induction a as [|x a IH]; [reflexivity |].
  rewrite append_cons. unfold chars in *. simpl. by f_equal.
Qed.

Lemma of_chars_chars (s : string) : of_chars (chars s) = s.
Proof. apply string_of_list_ascii_of_string. Qed.

Lemma chars_of_chars (l : list ascii) : chars (of_chars l) = l.
Proof. apply list_ascii_of_string_of_list_ascii. Qed.

Lemma contains_here (p rest : string) : contains (p +:+ rest) p.
Proof. by exists EmptyString, rest. Qed.

Lemma contains_end (p : string) : contains p p.
Proof. exists EmptyString, EmptyString. by rewrite append_nil_r. Qed.

Lemma contains_skip (a s p : string) : contains s p → contains (a +:+ s) p.
Proof.
  intros (before & after & ->). exists (a +:+ before), after.
  by rewrite append_assoc.
Qed.

Lemma contains_front (s b p : string) : contains s p → contains (s +:+ b) p.
Proof.
  intros (before & after & ->). exists before, (after +:+ b).
  by rewrite !append_assoc.
Qed.

End StringFacts.

(** Finds [p] in a concatenation [a1 +:+ (a2 +:+ ...)] when [p] starts where
    one of the pieces starts. *)
Ltac find_substring :=
  first
    [ eexists EmptyString, _; rewrite ?append_assoc; reflexivity
    | apply contains_end
    | apply contains_skip; find_substring ].

(* ===================================================================== *)
(** ** The ticket generator *)
(* ===================================================================== *)

Section Ticket.
Context {rt : Builtins}.

(** Reading a key that was missing and now holds the default that
    [data.get] would have supplied gives the same value. *)
Lemma get_insert_default (data : dict) (key k d dk : string) :
  data !! key = None →
  (k = key → d = dk) →
  get (<[key := JStr dk]> data) k d = get data k d.
Proof.
  intros Hnone Hd. unfold get.
  destruct (decide (k = key)) as [->|Hne].
  - rewrite lookup_insert_eq, Hnone. by rewrite Hd.
  - by rewrite lookup_insert_ne.
Qed.

Lemma generate_ticket_default (data : dict) (approved : json)
    (key dk : string) :
  data !! key = None →
  ("orderNumber" = key → "______" = dk) →
  ("shipperCountry" = key → EmptyString = dk) →
  (∀ k, k ∈ ["shipper"; "goodsDescription"; "declaredValue";
             "dutyAmount"; "entryPrepFee"; "totalCharges"] →
        k = key → "N/A" = dk) →
  generate_ticket (<[key := JStr dk]> data) approved
  = generate_ticket data approved.
Proof.
  intros Hnone Ho Hc Hna. unfold generate_ticket.
  rewrite !(get_insert_default data key) by
    (first [assumption | intros E; eapply Hna; [|exact E]; listed]).
  reflexivity.
Qed.

(** C4 (as amended).  When a field is absent from the record, the ticket
    is the one of the record with that field set to its placeholder: the
    literal "N/A" for shipper, goods description, declared value, duty
    amount, entry-prep fee and total charges; "______" for the order
    number; the empty string for the shipper country. *)
Theorem generate_ticket_placeholders (data : dict) (approved : json)
    (key : string) :
  data !! key = None →
  (key ∈ ["shipper"; "goodsDescription"; "declaredValue";
          "dutyAmount"; "entryPrepFee"; "totalCharges"] →
     generate_ticket data approved
     = generate_ticket (<[key := JStr "N/A"]> data) approved)
  ∧ (key = "orderNumber" →
     generate_ticket data approved
     = generate_ticket (<[key := JStr "______"]> data) approved)
  ∧ (key = "shipperCountry" →
     generate_ticket data approved
     = generate_ticket (<[key := JStr EmptyString]> data) approved).
Proof.
  intros Hnone.
  split; [|split]; intros Hkey; symmetry;
    apply generate_ticket_default; try assumption; intros; subst;
    first [reflexivity | discriminate | exfalso; by not_listed].
Qed.

(** C5.  For every shipment record (so in particular one with all fields
    present), the ticket rendered with approved = true contains
    "Сумма была списана с вашего баланса." and the total line reads
    "- Итого оплачено: $<total> USD"; rendered with approved = false it
    contains "Списание средств не производилось" and the total line reads
    "- Итого к оплате: $<total> USD". *)
Theorem generate_ticket_payment_wording (data : dict) :
  let total := fmt (get data "totalCharges" "N/A") in
  contains (generate_ticket data (JBool true))
    "Сумма была списана с вашего баланса."
  ∧ contains (generate_ticket data (JBool true))
      (nl +:+ "- Итого оплачено: $" +:+ total +:+ " USD" +:+ nl)
  ∧ contains (generate_ticket data (JBool false))
      "Списание средств не производилось"
  ∧ contains (generate_ticket data (JBool false))
      (nl +:+ "- Итого к оплате: $" +:+ total +:+ " USD" +:+ nl).
Proof.
  intros total. subst total. unfold generate_ticket. cbn [truthy].
  rewrite !append_assoc.
  repeat split; find_substring.
Qed.

End Ticket.

(* ===================================================================== *)
(** ** White space and fences *)
(* ===================================================================== *)

Section Strip.

Lemma whitespace_bytes w :
  w ∈ whitespace → w ≠ [] ∧ ∀ b, b ∈ w → printable b = false.
Proof.
  unfold whitespace. cbn [map app]. intros Hw.
  repeat (apply elem_of_cons in Hw as [->|Hw];
          [split; [discriminate|];
           intros b Hb;
           repeat (apply elem_of_cons in Hb as [->|Hb]; [reflexivity|]);
           by apply elem_of_nil in Hb |]).
  by apply elem_of_nil in Hw.
Qed.

Lemma is_ws_printable w c :
  c ∈ w → printable c = true → is_ws w = false.
Proof.
  intros Hc Hp. unfold is_ws. apply bool_decide_eq_false. intros Hw.
  apply whitespace_bytes in Hw as [_ Hw]. specialize (Hw c Hc). congruence.
Qed.

Lemma lstrip_chars_keep rv c l :
  printable c = true → lstrip_chars rv (c :: l) = c :: l.
Proof.
  intros Hp. cbn [lstrip_chars].
  rewrite (is_ws_printable [c] c) by (listed || done).
  destruct l as [|d l]; [reflexivity|].
  rewrite (is_ws_printable (oriented rv [c; d]) c)
    by (try done; destruct rv; cbn; listed).
  destruct l as [|e l]; [reflexivity|].
  rewrite (is_ws_printable (oriented rv [c; d; e]) c)
    by (try done; destruct rv; cbn; listed).
  reflexivity.
Qed.

(** Replaces [is_ws] of a closed byte sequence by its value. *)
Ltac eval_is_ws :=
  match goal with
  | |- context [is_ws ?x] =>
      let b := eval vm_compute in (is_ws x) in
      replace (is_ws x) with b by (vm_compute; reflexivity)
  end.

Lemma lstrip_chars_drop rv w l :
  w ∈ whitespace → lstrip_chars rv (oriented rv w ++ l) = lstrip_chars rv l.
Proof.
  unfold whitespace. cbn [map app]. intros Hw.
  repeat (apply elem_of_cons in Hw as [->|Hw];
          [destruct rv; cbn [oriented rev app lstrip_chars];
           repeat (eval_is_ws; cbn [oriented rev app lstrip_chars]);
           reflexivity|]).
  by apply elem_of_nil in Hw.
Qed.

Lemma lstrip_chars_blank ws l :
  Forall (λ c, c ∈ whitespace) ws →
  lstrip_chars false (concat ws ++ l) = lstrip_chars false l.
Proof.
  induction 1 as [|w ws Hw _ IH]; [reflexivity|].
  cbn [concat]. rewrite <- app_assoc.
  rewrite (lstrip_chars_drop false w) by done. apply IH.
Qed.

Lemma rstrip_chars_blank ws l :
  Forall (λ c, c ∈ whitespace) ws →
  lstrip_chars true (rev (concat ws) ++ l) = lstrip_chars true l.
Proof.
  revert l. induction ws as [|w ws IH]; intros l Hws; [reflexivity|].
  apply Forall_cons in Hws as [Hw Hws].
  cbn [concat]. rewrite rev_app_distr, <- app_assoc, IH by done.
  by apply (lstrip_chars_drop true w).
Qed.

Lemma blank_empty : blank EmptyString.
Proof. by exists []. Qed.

Lemma strip_framed (w1 b w2 : string) :
  blank w1 → blank w2 → head_printable b → last_printable b →
  strip (w1 +:+ b +:+ w2) = b.
Proof.
  intros (ws1 & Hws1 & E1) (ws2 & Hws2 & E2) (a & t & Hb & Ha) (i & z & Hi & Hz).
  unfold strip, rstrip, lstrip. rewrite chars_of_chars, !chars_app, E1, E2.
  rewrite lstrip_chars_blank by done.
  assert (chars b = a :: chars t) as Hhead by (by rewrite Hb).
  rewrite Hhead, <- app_comm_cons, lstrip_chars_keep by done.
  rewrite app_comm_cons, <- Hhead, rev_app_distr.
  rewrite rstrip_chars_blank by done.
  assert (chars b = chars i ++ [z]) as Hlast by (by rewrite Hi, chars_app).
  rewrite Hlast, rev_app_distr. cbn [rev app].
  rewrite lstrip_chars_keep by done.
  cbn [rev]. rewrite rev_involutive, <- Hlast. apply of_chars_chars.
Qed.

Lemma drop_prefix_app (p r : list ascii) : drop_prefix p (p ++ r) = Some r.
Proof.
  induction p as [|a p IH]; [by destruct r|].
  cbn. by rewrite bool_decide_eq_true_2.
Qed.

Lemma drop_prefix_app_both (p q s : list ascii) :
  drop_prefix (p ++ q) (p ++ s) = drop_prefix q s.
Proof.
  induction p as [|a p IH]; [reflexivity|].
  cbn. by rewrite bool_decide_eq_true_2.
Qed.

Lemma removeprefix_app (p r : string) : removeprefix (p +:+ r) p = r.
Proof.
  unfold removeprefix. rewrite chars_app, drop_prefix_app. apply of_chars_chars.
Qed.

Lemma removesuffix_app (r p : string) : removesuffix (r +:+ p) p = r.
Proof.
  unfold removesuffix.
  rewrite chars_app, rev_app_distr, drop_prefix_app, rev_involutive.
  apply of_chars_chars.
Qed.

Lemma removeprefix_starts_off (c : ascii) (p s : string) :
  starts_off c s → removeprefix s (String c p) = s.
Proof.
  unfold removeprefix. destruct s as [|a s]; [reflexivity|].
  cbn. intros Hne. by rewrite bool_decide_eq_false_2.
Qed.

Lemma removesuffix_ends_off (c : ascii) (p s : string) :
  ends_off c s → removesuffix s (p +:+ String c EmptyString) = s.
Proof.
  unfold removesuffix, ends_off. rewrite chars_app, rev_app_distr. cbn.
  destruct (rev (chars s)) as [|a l]; [reflexivity|].
  intros Hne. by rewrite bool_decide_eq_false_2.
Qed.

(** After white space comes white space or the text that follows it. *)
Lemma starts_off_blank (c : ascii) (w s : string) :
  printable c = true → blank w → starts_off c s → starts_off c (w +:+ s).
Proof.
  intros Hc (ws & Hws & E) Hs.
  destruct w as [|a w]; [done|]. cbn. intros Hac.
  destruct Hws as [|x ws Hx _]; [done|].
  apply whitespace_bytes in Hx as [Hne Hx].
  destruct x as [|b x]; [done|]. cbn in E. injection E as <- _.
  specialize (Hx a ltac:(listed)). congruence.
Qed.

End Strip.

(* ===================================================================== *)
(** ** The extraction adapter *)
(* ===================================================================== *)

Section Adapter.
Context {rt : Builtins}.

Lemma array_or_object_head body :
  array_or_object body →
  head_printable body ∧ ∀ c, c ∈ ["`"; "j"]%char → starts_off c body.
Proof.
  intros [(t & [-> | ->]) _]; (split; [by eexists _, _|]);
    intros c Hc; cbn; intros <-; by not_listed.
Qed.

Lemma array_or_object_last body :
  array_or_object body → last_printable body ∧ ends_off "`" body.
Proof.
  intros [_ (i & [-> | ->])]; (split; [by eexists _, _|]);
    unfold ends_off; rewrite chars_app, rev_app_distr; by cbn.
Qed.

Lemma removeprefix_fence_json (r : string) :
  starts_off "j" r → removeprefix ("```" +:+ r) "```json" = "```" +:+ r.
Proof.
  intros Hr. unfold removeprefix. rewrite chars_app.
  change (chars "```json") with (chars "```" ++ chars "json").
  rewrite drop_prefix_app_both.
  destruct r as [|a r]; [reflexivity|].
  cbn in Hr. cbn [chars list_ascii_of_string drop_prefix].
  by rewrite bool_decide_eq_false_2.
Qed.

Lemma unfence_plain (w1 body w4 : string) :
  blank w1 → blank w4 → array_or_object body →
  unfence (w1 +:+ body +:+ w4) = body.
Proof.
  intros H1 H4 Hbody.
  destruct (array_or_object_head body Hbody) as [Hhead Hoff].
  destruct (array_or_object_last body Hbody) as [Hlast Hend].
  unfold unfence. rewrite strip_framed by done.
  rewrite !(removeprefix_starts_off "`" _ body) by (apply Hoff; listed).
  change "```" with ("``" +:+ "`").
  rewrite removesuffix_ends_off by done.
  rewrite <- (append_nil_r body) at 1.
  apply (strip_framed EmptyString body EmptyString); auto using blank_empty.
Qed.

Lemma unfence_fenced (opening w1 w2 body w3 w4 : string) :
  opening ∈ ["```json"; "```"] →
  blank w1 → blank w2 → blank w3 → blank w4 → array_or_object body →
  unfence (w1 +:+ opening +:+ w2 +:+ body +:+ w3 +:+ "```" +:+ w4) = body.
Proof.
  intros Hopen H1 H2 H3 H4 Hbody.
  destruct (array_or_object_head body Hbody) as [Hhead Hoff].
  destruct (array_or_object_last body Hbody) as [Hlast Hend].
  set (r := w2 +:+ body +:+ w3 +:+ "```").
  assert (∀ c, c ∈ ["`"; "j"]%char → starts_off c r) as Hr.
  { intros c Hc. apply starts_off_blank; [|done|].
    - repeat (apply elem_of_cons in Hc as [->|Hc]; [reflexivity|]).
      by apply elem_of_nil in Hc.
    - specialize (Hoff c Hc). destruct Hhead as (a & t & -> & _). exact Hoff. }
  assert (removeprefix (removeprefix (opening +:+ r) "```json") "```" = r)
    as Hprefix.
  { apply elem_of_cons in Hopen as [->|Hopen].
    - rewrite removeprefix_app.
      apply (removeprefix_starts_off "`"), Hr. listed.
    - apply list_elem_of_singleton in Hopen as ->.
      rewrite removeprefix_fence_json by (apply Hr; listed).
      apply removeprefix_app. }
  unfold unfence.
  replace (w1 +:+ opening +:+ w2 +:+ body +:+ w3 +:+ "```" +:+ w4)
    with (w1 +:+ (opening +:+ r) +:+ w4)
    by (unfold r; by rewrite !append_assoc).
  rewrite strip_framed; try done.
  - rewrite Hprefix. unfold r.
    replace (w2 +:+ body +:+ w3 +:+ "```") with ((w2 +:+ body +:+ w3) +:+ "```")
      by (by rewrite !append_assoc).
    rewrite removesuffix_app. by apply strip_framed.
  - apply elem_of_cons in Hopen as [->|Hopen];
      [|apply list_elem_of_singleton in Hopen as ->]; by eexists _, _.
  - exists (opening +:+ w2 +:+ body +:+ w3 +:+ "``"), "`"%char.
    split; [|reflexivity]. unfold r. by rewrite !append_assoc.
Qed.

(** C8.  When the engine's text is a JSON array or object [body], alone or
    between a leading fence (three backquotes, with or without "json") and
    a closing fence, with any white space around the fences and the body,
    the adapter parses exactly [body]; when [body] parses to a single
    object the adapter returns the one-element list holding it, and when it
    parses to a list the adapter returns that list. *)
Theorem process_invoices_unfences_and_normalizes
    (content : list block) (opening w1 w2 body w3 w4 : string) :
  opening ∈ ["```json"; "```"] →
  blank w1 → blank w2 → blank w3 → blank w4 → array_or_object body →
  (message_text content = w1 +:+ opening +:+ w2 +:+ body +:+ w3 +:+ "```" +:+ w4
   ∨ message_text content = w1 +:+ body +:+ w4) →
  unfence (message_text content) = body
  ∧ (∀ m, json_loads body = Some (JObj m) →
          process_invoices (EngineMessage content) = inr [JObj m])
  ∧ (∀ l, json_loads body = Some (JArr l) →
          process_invoices (EngineMessage content) = inr l).
Proof.
  intros Hopen H1 H2 H3 H4 Hbody Htext.
  assert (unfence (message_text content) = body) as Hun.
  { destruct Htext as [-> | ->];
      [by apply unfence_fenced | by apply unfence_plain]. }
  split; [done|]. unfold process_invoices. rewrite Hun.
  split; intros ? ->; reflexivity.
Qed.

End Adapter.

(* ===================================================================== *)
(** ** Running the handlers *)
(* ===================================================================== *)

Section Store.

Lemma touch_id (user_id : Z) (st : store) :
  is_Some (st !! user_id) → touch user_id st = st.
Proof.
  intros [s Hs]. unfold touch, session_of. rewrite Hs. by apply insert_id.
Qed.

Lemma session_of_touch (user_id u : Z) (st : store) :
  session_of (touch user_id st) u = session_of st u.
Proof.
  unfold touch, session_of at 1.
  destruct (decide (user_id = u)) as [->|Hne].
  - by rewrite lookup_insert_eq.
  - by rewrite lookup_insert_ne.
Qed.

Lemma session_of_insert (user_id : Z) (s : session) (st : store) :
  session_of (<[user_id := s]> st) user_id = s.
Proof. unfold session_of. by rewrite lookup_insert_eq. Qed.

Lemma session_of_insert_ne (user_id u : Z) (s : session) (st : store) :
  user_id ≠ u → session_of (<[user_id := s]> st) u = session_of st u.
Proof. intros. unfold session_of. by rewrite lookup_insert_ne. Qed.

Lemma get_session_run (user_id : Z) (st : store) :
  get_session user_id st = (touch user_id st, [], inr (session_of st user_id)).
Proof.
  unfold get_session, touch, session_of.
  destruct (st !! user_id) as [s|] eqn:Hs; cbn; [|done].
  by rewrite insert_id.
Qed.

Lemma update_touch (user_id : Z) (f : session → session) (st : store) :
  update user_id f (touch user_id st)
  = (<[user_id := f (session_of st user_id)]> st, [], inr tt).
Proof.
  unfold update, touch. by rewrite alter_insert_eq.
Qed.

Lemma update_insert (user_id : Z) (f : session → session) (s : session)
    (st : store) :
  update user_id f (<[user_id := s]> st)
  = (<[user_id := f s]> st, [], inr tt).
Proof. unfold update. by rewrite alter_insert_eq. Qed.

Lemma current_insert (user_id : Z) (s : session) (st : store) :
  current user_id (<[user_id := s]> st) = (<[user_id := s]> st, [], inr s).
Proof. unfold current. by rewrite lookup_insert_eq. Qed.

Lemma current_touch (user_id : Z) (st : store) :
  current user_id (touch user_id st)
  = (touch user_id st, [], inr (session_of st user_id)).
Proof. apply current_insert. Qed.

End Store.

(* ===================================================================== *)
(** ** Access control *)
(* ===================================================================== *)

Section Access.
Context {rt : Builtins} {cfg : Config}.

(** C2 (as amended).  For a user the membership check rejects, [/start],
    a photo, [/done], [/order] and [/tickets] check membership first and
    leave the whole session store as it was; [/start] answers with the
    fixed access-denied text and the other four send nothing. *)
Theorem denied_user_changes_nothing (st : store) (user_id : Z)
    (photo : option string) (reply : engine_reply) (args : list string) :
  is_allowed user_id = inr false →
  cmd_start user_id st = (st, [ReplyText access_denied Plain], inr tt)
  ∧ handle_photo user_id photo st = (st, [], inr tt)
  ∧ cmd_done user_id reply st = (st, [], inr tt)
  ∧ cmd_order user_id args st = (st, [], inr tt)
  ∧ cmd_tickets user_id st = (st, [], inr tt).
Proof.
  intros Hdenied.
  unfold cmd_start, handle_photo, cmd_done, cmd_order, cmd_tickets.
  unfold bind, lift. rewrite Hdenied. by cbn.
Qed.

End Access.

(* ===================================================================== *)
(** ** Photos *)
(* ===================================================================== *)

Section Photo.
Context {rt : Builtins} {cfg : Config}.

(** C6.  For a user who is allowed and whose session is in phase review,
    a received image resets the session: its images are exactly the new
    image, its shipments are empty and its phase is collecting. *)
Theorem handle_photo_in_review_resets (st : store) (user_id : Z)
    (img : string) :
  is_allowed user_id = inr true →
  phase_of (session_of st user_id) = review →
  handle_photo user_id (Some img) st
  = (<[user_id := {| images := [img]; phase_of := collecting;
                     shipments := [] |}]> st,
     [ReplyText ("✅ Фото 1 загружено." +:+ nl +:+
                 "Отправьте ещё фото или нажмите /done для распознавания.")
        Plain],
     inr tt).
Proof.
  intros Hallowed Hphase.
  unfold handle_photo, bind, lift. rewrite Hallowed. cbn [negb].
  rewrite get_session_run, Hphase.
  rewrite update_touch, !update_insert, current_insert.
  reflexivity.
Qed.

End Photo.

(* ===================================================================== *)
(** ** Index-addressed requests *)
(* ===================================================================== *)

Section Indexed.
Context {rt : Builtins} {cfg : Config}.

Lemma py_index_in_range {A} (l : list A) (idx : Z) :
  0 ≤ idx < Z.of_nat (length l) → py_index l idx = Some (Z.to_nat idx).
Proof.
  intros [Hlo Hhi]. unfold py_index.
  by rewrite (proj2 (Z.leb_le _ _) Hlo), (proj2 (Z.ltb_lt _ _) Hhi).
Qed.

Lemma set_field_run (user_id idx : Z) (key : string) (v : json)
    (s : session) (st : store) :
  0 ≤ idx < Z.of_nat (length (shipments s)) →
  set_field user_id idx key v (<[user_id := s]> st)
  = (<[user_id := set_shipments
         (alter (insert key v) (Z.to_nat idx) (shipments s)) s]> st,
     [], inr tt).
Proof.
  intros Hidx. unfold set_field, bind.
  rewrite current_insert, py_index_in_range by done.
  by rewrite update_insert.
Qed.

Lemma handle_callback_sets (st : store) (user_id idx : Z) (data : string)
    (v : bool) :
  approval_button data v →
  callback_index data = inr idx →
  0 ≤ idx < Z.of_nat (length (shipments (session_of st user_id))) →
  (handle_callback user_id data st).1.1
  = <[user_id := set_shipments
        (alter (insert "paymentApproved" (JBool v)) (Z.to_nat idx)
           (shipments (session_of st user_id)))
        (session_of st user_id)]> st.
Proof.
  intros Hdata Hidx Hrange.
  unfold handle_callback, bind, send, lift.
  rewrite get_session_run.
  destruct Hdata as [[-> ->] | (-> & -> & ->)];
    rewrite Hidx, bool_decide_eq_true_2 by lia;
    unfold touch; rewrite set_field_run by done; reflexivity.
Qed.

Lemma handle_callback_out_of_range (st : store) (user_id idx : Z)
    (data : string) :
  callback_index data = inr idx →
  Z.of_nat (length (shipments (session_of st user_id))) ≤ idx →
  handle_callback user_id data st = (touch user_id st, [AnswerQuery], inr tt).
Proof.
  intros Hidx Hrange.
  unfold handle_callback, bind, send, lift.
  rewrite get_session_run, Hidx.
  rewrite bool_decide_eq_false_2 by lia.
  by destruct (startswith data "approve_"), (startswith data "reject_"),
       (startswith data "ticket_").
Qed.

Lemma cmd_order_out_of_range (st : store) (user_id num : Z)
    (first second : string) (rest : list string) :
  is_allowed user_id = inr true →
  py_int first = Some num →
  (num - 1 < 0
   ∨ Z.of_nat (length (shipments (session_of st user_id))) ≤ num - 1) →
  cmd_order user_id (first :: second :: rest) st
  = (touch user_id st,
     [ReplyText (not_found (num - 1)) Plain], inr tt).
Proof.
  intros Hallowed Hnum Hrange.
  unfold cmd_order, bind, lift. rewrite Hallowed. cbn [negb].
  rewrite get_session_run.
  unfold try_except, bind, lift, int. rewrite Hnum.
  assert (bool_decide (0 ≤ num - 1)
          && bool_decide
               (num - 1 < Z.of_nat (length (shipments (session_of st user_id))))
          = false) as ->.
  { apply andb_false_iff. destruct Hrange.
    - left. apply bool_decide_eq_false_2. lia.
    - right. apply bool_decide_eq_false_2. lia. }
  reflexivity.
Qed.

(** C1 (as amended).  In every store, an approve, reject or ticket button
    whose index is at or beyond the number of shipments changes no session
    and sends nothing but the acknowledgement of the button press; [/order]
    with an index outside [0, len(shipments)) changes no session and
    answers that the shipment was not found.  The only trace either leaves
    in the store is the lazily created session of the user. *)
Theorem out_of_range_index_changes_nothing (st : store) (user_id : Z) :
  let n := Z.of_nat (length (shipments (session_of st user_id))) in
  (∀ data idx,
     callback_index data = inr idx → n ≤ idx →
     handle_callback user_id data st
     = (touch user_id st, [AnswerQuery], inr tt))
  ∧ (∀ first second rest num,
       is_allowed user_id = inr true →
       py_int first = Some num →
       (num - 1 < 0 ∨ n ≤ num - 1) →
       cmd_order user_id (first :: second :: rest) st
       = (touch user_id st,
          [ReplyText (not_found (num - 1)) Plain], inr tt))
  ∧ (∀ u, session_of (touch user_id st) u = session_of st u)
  ∧ (is_Some (st !! user_id) → touch user_id st = st).
Proof.
  intros n. repeat split.
  - intros data idx. apply handle_callback_out_of_range.
  - intros first second rest num. apply cmd_order_out_of_range.
  - intros u. apply session_of_touch.
  - apply touch_id.
Qed.

(** C9.  For every session (in review or not), every index within
    [0, len(shipments)) and every flag [v], pressing the button that sets
    the approval of that shipment to [v] stores [v] in its
    ["paymentApproved"] field, and pressing it a second time leaves the
    store exactly as the first press left it. *)
Theorem set_approval_idempotent (st : store) (user_id idx : Z)
    (data : string) (v : bool) :
  approval_button data v →
  callback_index data = inr idx →
  0 ≤ idx < Z.of_nat (length (shipments (session_of st user_id))) →
  let once := (handle_callback user_id data st).1.1 in
  let twice := (handle_callback user_id data once).1.1 in
  once = <[user_id := set_shipments
             (alter (insert "paymentApproved" (JBool v)) (Z.to_nat idx)
                (shipments (session_of st user_id)))
             (session_of st user_id)]> st
  ∧ twice = once.
Proof.
  intros Hdata Hidx Hrange once twice.
  assert (once = <[user_id := set_shipments
             (alter (insert "paymentApproved" (JBool v)) (Z.to_nat idx)
                (shipments (session_of st user_id)))
             (session_of st user_id)]> st) as Honce
    by (by apply handle_callback_sets).
  split; [done|]. unfold twice.
  rewrite (handle_callback_sets once user_id idx data v); try done.
  - rewrite Honce, session_of_insert, insert_insert_eq. cbn [shipments set_shipments].
    rewrite list_alter_alter_eq.
    f_equal. unfold set_shipments. cbn. f_equal.
    apply list_alter_ext; [|done]. intros d _. cbn. apply insert_insert_eq.
  - rewrite Honce, session_of_insert. cbn. by rewrite length_alter.
Qed.

End Indexed.

(* ===================================================================== *)
(** ** Finalize *)
(* ===================================================================== *)

Section Finalize.
Context {rt : Builtins} {cfg : Config}.

Lemma bind_silent {A B} (m : M A) (k : A → M B) (st st1 : store) (a : A) :
  m st = (st1, [], inr a) → bind m k st = k a st1.
Proof. intros Hm. unfold bind. rewrite Hm. by destruct (k a st1) as [[? ?] ?]. Qed.

Lemma bind_raises {A B} (m : M A) (k : A → M B) (st st1 : store) out e :
  m st = (st1, out, inl e) → bind m k st = (st1, out, inl e).
Proof. intros Hm. unfold bind. by rewrite Hm. Qed.

Lemma quiet_run {A} (m : M A) (st : store) :
  quiet m → ∃ out r, m st = (st, out, r).
Proof.
  intros Hm. specialize (Hm st).
  destruct (m st) as [[st1 out] r]. cbn in Hm. subst. by eexists _, _.
Qed.

Lemma quiet_ret {A} (a : A) : quiet (ret a).
Proof. by intros st. Qed.

Lemma quiet_send (e : effect) : quiet (send e).
Proof. by intros st. Qed.

Lemma quiet_raise {A} (e : exn) : quiet (raise (A := A) e).
Proof. by intros st. Qed.

Lemma quiet_current (user_id : Z) : quiet (current user_id).
Proof. by intros st. Qed.

Lemma quiet_bind {A B} (m : M A) (k : A → M B) :
  quiet m → (∀ a, quiet (k a)) → quiet (bind m k).
Proof.
  intros Hm Hk st. unfold bind.
  destruct (quiet_run m st Hm) as (out & r & ->).
  destruct r as [e|a]; [done|].
  destruct (quiet_run (k a) st (Hk a)) as (out2 & r2 & ->). done.
Qed.

Lemma quiet_for_each {A} (l : list A) (body : A → M unit) :
  (∀ x, quiet (body x)) → quiet (for_each l body).
Proof.
  intros Hbody. induction l as [|x l IH]; [apply quiet_ret|].
  cbn [for_each]. apply quiet_bind; auto.
Qed.

Lemma quiet_send_shipment_card (user_id : Z) (idx : nat) :
  quiet (send_shipment_card user_id idx).
Proof.
  unfold send_shipment_card. apply quiet_bind; [apply quiet_current|].
  intros session. destruct (shipments session !! idx) as [s|];
    [|apply quiet_raise].
  cbv zeta.
  destruct (truthy (get s "paymentUrl" "N/A")
            && negb (eq_str (get s "paymentUrl" "N/A") "N/A"));
    [|apply quiet_send].
  destruct (get s "paymentUrl" "N/A");
    first [apply quiet_send | apply quiet_raise].
Qed.

(** The loop that commits the drafts appends every object in turn. *)
Lemma commit_loop (user_id : Z) (ds : list dict) (ses : session)
    (st : store) :
  for_each (JObj <$> ds) (λ s,
      let* d := lift (new_shipment s) in
      update user_id (λ ses, set_shipments (shipments ses ++ [d]) ses))
    (<[user_id := ses]> st)
  = (<[user_id := set_shipments (shipments ses ++ (augmented <$> ds)) ses]> st,
     [], inr tt).
Proof.
  revert ses. induction ds as [|d ds IH]; intros ses.
  - cbn. rewrite app_nil_r. by destruct ses.
  - cbn [fmap list_fmap for_each].
    rewrite (bind_silent _ _ _
               (<[user_id := set_shipments (shipments ses ++ [augmented d]) ses]> st)
               tt).
    + rewrite IH. cbn [shipments set_shipments].
      by rewrite <- app_assoc.
    + rewrite (bind_silent _ _ _ (<[user_id := ses]> st) (augmented d))
        by reflexivity.
      apply (update_insert user_id
               (λ ses, set_shipments (shipments ses ++ [augmented d]) ses)).
Qed.

Lemma cmd_done_try_commits (user_id : Z) (reply : engine_reply)
    (ds : list dict) (ses : session) (st : store) :
  process_invoices reply = inr (JObj <$> ds) →
  ∃ out r,
    cmd_done_try user_id reply (<[user_id := ses]> st)
    = (<[user_id := {| images := images ses; phase_of := review;
                       shipments := augmented <$> ds |}]> st, out, r).
Proof.
  intros Hreply. unfold cmd_done_try. rewrite Hreply.
  rewrite (bind_silent _ _ _ (<[user_id := ses]> st) (JObj <$> ds))
    by reflexivity.
  rewrite (bind_silent _ _ _ _ tt (update_insert _ _ _ _)).
  rewrite (bind_silent _ _ _ _ tt (commit_loop _ _ _ _)).
  rewrite (bind_silent _ _ _ _ tt (update_insert _ _ _ _)).
  rewrite (bind_silent _ _ _ _ _ (current_insert _ _ _)).
  cbn [shipments set_shipments set_phase images phase_of app].
  apply quiet_run, quiet_bind.
  - apply quiet_for_each, quiet_send_shipment_card.
  - intros _. case_bool_decide; apply quiet_send.
Qed.

Lemma cmd_done_try_adapter_fails (user_id : Z) (reply : engine_reply)
    (e : exn) (st : store) :
  process_invoices reply = inl e →
  cmd_done_try user_id reply st = (st, [], inl e).
Proof.
  intros Hreply. unfold cmd_done_try. rewrite Hreply.
  by apply bind_raises.
Qed.

Lemma cmd_done_enters_try (st : store) (user_id : Z) (reply : engine_reply) :
  is_allowed user_id = inr true →
  images (session_of st user_id) ≠ [] →
  cmd_done user_id reply st
  = match try_except (cmd_done_try user_id reply) (λ _, true)
            (send (EditText recognition_failed)) (touch user_id st) with
    | (st2, out2, r) =>
        (st2,
         ReplyText
           (analyzing (Z.of_nat (length (images (session_of st user_id)))))
           Plain :: out2,
         r)
    end.
Proof.
  intros Hallowed Himages. unfold cmd_done.
  rewrite (bind_silent _ _ _ st true) by (unfold lift; by rewrite Hallowed).
  cbn [negb].
  rewrite (bind_silent _ _ _ _ _ (get_session_run _ _)).
  rewrite bool_decide_eq_false_2 by done.
  reflexivity.
Qed.

Lemma cmd_done_no_images (st : store) (user_id : Z) (reply : engine_reply) :
  is_allowed user_id = inr true →
  images (session_of st user_id) = [] →
  cmd_done user_id reply st
  = (touch user_id st, [ReplyText no_photos Plain], inr tt).
Proof.
  intros Hallowed Himages. unfold cmd_done.
  rewrite (bind_silent _ _ _ st true) by (unfold lift; by rewrite Hallowed).
  cbn [negb].
  rewrite (bind_silent _ _ _ _ _ (get_session_run _ _)).
  by rewrite bool_decide_eq_true_2.
Qed.

Lemma cmd_done_adapter_fails (st : store) (user_id : Z)
    (reply : engine_reply) (e : exn) :
  is_allowed user_id = inr true →
  images (session_of st user_id) ≠ [] →
  process_invoices reply = inl e →
  cmd_done user_id reply st
  = (touch user_id st,
     [ReplyText
        (analyzing (Z.of_nat (length (images (session_of st user_id))))) Plain;
      EditText recognition_failed],
     inr tt).
Proof.
  intros Hallowed Himages Hreply.
  rewrite cmd_done_enters_try by done. unfold try_except.
  by rewrite (cmd_done_try_adapter_fails _ _ e).
Qed.

Lemma cmd_done_commits (st : store) (user_id : Z) (reply : engine_reply)
    (ds : list dict) :
  is_allowed user_id = inr true →
  images (session_of st user_id) ≠ [] →
  process_invoices reply = inr (JObj <$> ds) →
  ∃ out,
    cmd_done user_id reply st
    = (<[user_id := {| images := images (session_of st user_id);
                       phase_of := review;
                       shipments := augmented <$> ds |}]> st,
       out, inr tt).
Proof.
  intros Hallowed Himages Hreply.
  rewrite cmd_done_enters_try by done. unfold try_except, touch.
  destruct (cmd_done_try_commits user_id reply ds (session_of st user_id) st
              Hreply) as (out & r & ->).
  destruct r as [e|[]]; by eexists.
Qed.

Lemma augmented_fields (d : dict) :
  augmented d !! "orderNumber" = Some (JStr EmptyString)
  ∧ augmented d !! "paymentApproved" = Some (JBool true)
  ∧ ∀ key, key ≠ "orderNumber" → key ≠ "paymentApproved" →
           augmented d !! key = d !! key.
Proof.
  unfold augmented. repeat split.
  - by rewrite lookup_insert_ne, lookup_insert_eq.
  - by rewrite lookup_insert_eq.
  - intros key H1 H2. by rewrite !lookup_insert_ne.
Qed.

(** C3 (as amended).  For an allowed user whose session holds images:
    when the extraction adapter fails, [/done] leaves every session as it
    was, so the phase stays what it was (collecting for a session that was
    collecting), the images are kept and the shipments are untouched, and
    the error message is shown; when the adapter returns drafts that are
    all objects, every one of them is committed. *)
Theorem finalize_failure_keeps_session (st : store) (user_id : Z)
    (reply : engine_reply) :
  is_allowed user_id = inr true →
  images (session_of st user_id) ≠ [] →
  (∀ e, process_invoices reply = inl e →
     cmd_done user_id reply st
     = (touch user_id st,
        [ReplyText
           (analyzing (Z.of_nat (length (images (session_of st user_id)))))
           Plain;
         EditText recognition_failed],
        inr tt)
     ∧ (∀ u, session_of (touch user_id st) u = session_of st u)
     ∧ (is_Some (st !! user_id) → touch user_id st = st))
  ∧ (∀ ds, process_invoices reply = inr (JObj <$> ds) →
       ∃ out st',
         cmd_done user_id reply st = (st', out, inr tt)
         ∧ shipments (session_of st' user_id) = augmented <$> ds).
Proof.
  intros Hallowed Himages. split.
  - intros e He. split; [by apply (cmd_done_adapter_fails _ _ _ e)|].
    split; [intros u; apply session_of_touch | apply touch_id].
  - intros ds Hds.
    destruct (cmd_done_commits st user_id reply ds) as (out & ->); try done.
    eexists _, _. split; [reflexivity|]. by rewrite session_of_insert.
Qed.

(** C7.  For an allowed user: with images in the session and an adapter
    that returns drafts (objects), [/done] makes the shipments exactly
    those drafts, in order, each with an empty orderNumber and
    paymentApproved = true and its other fields as extracted, sets the
    phase to review and keeps the images; with no images it changes no
    session and answers that there are no photos. *)
Theorem finalize_builds_shipments (st : store) (user_id : Z)
    (reply : engine_reply) :
  is_allowed user_id = inr true →
  (images (session_of st user_id) ≠ [] →
   ∀ ds, process_invoices reply = inr (JObj <$> ds) →
     ∃ out,
       cmd_done user_id reply st
       = (<[user_id := {| images := images (session_of st user_id);
                          phase_of := review;
                          shipments := augmented <$> ds |}]> st,
          out, inr tt))
  ∧ (∀ d : dict,
       augmented d !! "orderNumber" = Some (JStr EmptyString)
       ∧ augmented d !! "paymentApproved" = Some (JBool true)
       ∧ ∀ key, key ≠ "orderNumber" → key ≠ "paymentApproved" →
                augmented d !! key = d !! key)
  ∧ (images (session_of st user_id) = [] →
     cmd_done user_id reply st
     = (touch user_id st, [ReplyText no_photos Plain], inr tt)
     ∧ ∀ u, session_of (touch user_id st) u = session_of st u).
Proof.
  intros Hallowed. split; [|split].
  - intros Himages ds Hds. by apply cmd_done_commits.
  - apply augmented_fields.
  - intros Himages. split; [by apply cmd_done_no_images|].
    intros u. apply session_of_touch.
Qed.

(** C10.  For an allowed user whose session holds images, when the
    adapter succeeds with an empty list of drafts, [/done] still puts the
    session in phase review with no shipments; [/tickets] on that store
    then only answers that nothing was recognized and renders no ticket. *)
Theorem finalize_empty_then_tickets (st : store) (user_id : Z)
    (reply : engine_reply) :
  is_allowed user_id = inr true →
  images (session_of st user_id) ≠ [] →
  process_invoices reply = inr [] →
  let reviewed : store :=
    <[user_id := {| images := images (session_of st user_id);
                    phase_of := review; shipments := [] |}]> st in
  cmd_done user_id reply st
  = (reviewed,
     [ReplyText
        (analyzing (Z.of_nat (length (images (session_of st user_id))))) Plain;
      ReplyText found_one Markdown],
     inr tt)
  ∧ cmd_tickets user_id reviewed
    = (reviewed, [ReplyText no_shipments Plain], inr tt).
Proof.
  intros Hallowed Himages Hreply reviewed. split.
  - rewrite cmd_done_enters_try by done.
    unfold try_except, touch, cmd_done_try. rewrite Hreply.
    rewrite (bind_silent _ _ _
               (<[user_id := session_of st user_id]> st) []) by reflexivity.
    rewrite (bind_silent _ _ _ _ tt (update_insert _ _ _ _)).
    cbn [for_each].
    rewrite (bind_silent _ _ _ _ tt eq_refl).
    rewrite (bind_silent _ _ _ _ tt (update_insert _ _ _ _)).
    rewrite (bind_silent _ _ _ _ _ (current_insert _ _ _)).
    reflexivity.
  - unfold cmd_tickets.
    rewrite (bind_silent _ _ _ reviewed true)
      by (unfold lift; by rewrite Hallowed).
    cbn [negb].
    rewrite (bind_silent _ _ _ _ _ (get_session_run _ _)).
    unfold reviewed. rewrite session_of_insert. cbn [shipments].
    rewrite bool_decide_eq_true_2 by done.
    unfold send, touch. by rewrite session_of_insert, insert_insert_eq.
Qed.

End Finalize.

(* ===================================================================== *)
(** ** Worked examples *)
(* ===================================================================== *)

Section Examples.
Import Sample.
Local Existing Instance runtime.

(** The placeholder of a missing shipper is "N/A". *)
Lemma generate_ticket_placeholders_witness :
  generate_ticket ∅ (JBool true)
  = generate_ticket (<["shipper" := JStr "N/A"]> ∅) (JBool true).
Proof.
  pose proof (generate_ticket_placeholders ∅ (JBool true) "shipper" eq_refl)
    as [Hna _].
  apply Hna. listed.
Defined.

(** C4 as stated fails: a missing order number is rendered "______" and a
    missing shipper country is rendered as nothing, not as "N/A". *)
Lemma generate_ticket_not_always_na :
  (∅ : dict) !! "orderNumber" = None
  ∧ generate_ticket ∅ (JBool true)
    ≠ generate_ticket (<["orderNumber" := JStr "N/A"]> ∅) (JBool true)
  ∧ (∅ : dict) !! "shipperCountry" = None
  ∧ generate_ticket ∅ (JBool true)
    ≠ generate_ticket (<["shipperCountry" := JStr "N/A"]> ∅) (JBool true).
Proof.
  repeat split; try (intros H; vm_compute in H; discriminate H).
Qed.

Lemma blank_newline : blank nl.
Proof.
  exists [[byte 10]]. split; [|reflexivity].
  repeat constructor.
Qed.

(** A fenced object: the adapter returns the one-element list. *)
Lemma process_invoices_unfences_and_normalizes_witness :
  process_invoices
    (EngineMessage
       [TextBlock (EmptyString +:+ "```json" +:+ nl +:+ "{}" +:+ nl +:+
                   "```" +:+ EmptyString)])
  = inr [JObj ∅].
Proof.
  assert (array_or_object "{}") as Hbody.
  { split; [exists "}" | exists "{"]; by right. }
  destruct (process_invoices_unfences_and_normalizes
              [TextBlock (EmptyString +:+ "```json" +:+ nl +:+ "{}" +:+ nl +:+
                          "```" +:+ EmptyString)]
              "```json" EmptyString nl "{}" nl EmptyString
              ltac:(listed) blank_empty blank_newline blank_newline
              blank_empty Hbody (or_introl eq_refl))
    as (_ & Hobj & _).
  apply Hobj. reflexivity.
Defined.

(** User 2 is not in the allow-list "1". *)
Lemma denied_user_changes_nothing_witness :
  is_allowed (cfg := only_user_1) 2 = inr false
  ∧ cmd_start (cfg := only_user_1) 2 reviewing
    = (reviewing, [ReplyText access_denied Plain], inr tt)
  ∧ cmd_done (cfg := only_user_1) 2 EngineRaises reviewing
    = (reviewing, [], inr tt).
Proof.
  assert (is_allowed (cfg := only_user_1) 2 = inr false) as Hdenied
    by (vm_compute; reflexivity).
  destruct (denied_user_changes_nothing (cfg := only_user_1) reviewing 2
              (Some "img") EngineRaises ["1"; "X"] Hdenied)
    as (Hstart & _ & Hdone & _).
  auto.
Defined.

(** C2 as stated fails: with the allow-list "1", user 2 can run [/clear],
    which stores a session and answers "cleared"; a photo from user 2 is
    dropped without any answer; a button pressed by user 2 stores a
    session before any check. *)
Lemma denied_user_is_not_always_told :
  is_allowed (cfg := only_user_1) 2 = inr false
  ∧ cmd_clear 2 ∅
    = ({[ 2 := fresh ]},
       [ReplyText "🗑 Очищено. Отправляйте новые фото инвойсов." Plain],
       inr tt)
  ∧ handle_photo (cfg := only_user_1) 2 (Some "img") ∅ = (∅, [], inr tt)
  ∧ handle_callback 2 "approve_0" ∅
    = ({[ 2 := fresh ]}, [AnswerQuery], inr tt).
Proof. repeat split; vm_compute; reflexivity. Qed.

(** A photo sent during review. *)
Lemma handle_photo_in_review_resets_witness :
  handle_photo (cfg := everyone) 7 (Some "new") reviewing
  = (<[7 := {| images := ["new"]; phase_of := collecting;
               shipments := [] |}]> reviewing,
     [ReplyText ("✅ Фото 1 загружено." +:+ nl +:+
                 "Отправьте ещё фото или нажмите /done для распознавания.")
        Plain],
     inr tt).
Proof.
  assert (is_allowed (cfg := everyone) 7 = inr true) as Hallowed
    by (vm_compute; reflexivity).
  assert (phase_of (session_of reviewing 7) = review) as Hphase
    by (vm_compute; reflexivity).
  exact (handle_photo_in_review_resets (cfg := everyone) reviewing 7 "new"
           Hallowed Hphase).
Defined.

(** Index 5 on a one-shipment session, and [/order 2 ABC]. *)
Lemma out_of_range_index_changes_nothing_witness :
  handle_callback 7 "approve_5" reviewing
  = (touch 7 reviewing, [AnswerQuery], inr tt)
  ∧ cmd_order (cfg := everyone) 7 ["2"; "ABC"] reviewing
    = (touch 7 reviewing, [ReplyText (not_found (2 - 1)) Plain], inr tt)
  ∧ touch 7 reviewing = reviewing.
Proof.
  destruct (out_of_range_index_changes_nothing (cfg := everyone) reviewing 7)
    as (Hbutton & Horder & _ & Hsame).
  split; [|split].
  - apply (Hbutton "approve_5" 5); [vm_compute; reflexivity | by vm_compute].
  - apply (Horder "2" "ABC" [] 2);
      [vm_compute; reflexivity | vm_compute; reflexivity |
       right; by vm_compute].
  - apply Hsame. by eexists.
Defined.

(** C1 as stated fails: an out-of-range button is ignored without any
    error being signalled, and a negative index passes the bound check of
    the buttons and changes the last shipment. *)
Lemma button_index_is_not_fully_checked :
  handle_callback 7 "approve_5" reviewing = (reviewing, [AnswerQuery], inr tt)
  ∧ callback_index "reject_-1" = inr (-1)
  ∧ shipments (session_of reviewing 7) = [one_shipment]
  ∧ one_shipment !! "paymentApproved" = Some (JBool true)
  ∧ shipments (session_of (handle_callback 7 "reject_-1" reviewing).1.1 7)
    = [<["paymentApproved" := JBool false]> one_shipment].
Proof. repeat split; vm_compute; reflexivity. Qed.

(** Rejecting shipment 1 twice. *)
Lemma set_approval_idempotent_witness :
  (handle_callback 7 "reject_0"
     (handle_callback 7 "reject_0" reviewing).1.1).1.1
  = (handle_callback 7 "reject_0" reviewing).1.1.
Proof.
  assert (approval_button "reject_0" false) as Hbutton
    by (right; repeat split; vm_compute; reflexivity).
  assert (callback_index "reject_0" = inr 0) as Hidx
    by (vm_compute; reflexivity).
  assert (0 ≤ 0 < Z.of_nat (length (shipments (session_of reviewing 7))))
    as Hrange by (by vm_compute).
  destruct (set_approval_idempotent reviewing 7 0 "reject_0" false
              Hbutton Hidx Hrange) as [_ Htwice].
  exact Htwice.
Defined.

(** The engine call raises while user 7 has one photo. *)
Lemma finalize_failure_keeps_session_witness :
  cmd_done (cfg := everyone) 7 EngineRaises collecting_one
  = (touch 7 collecting_one,
     [ReplyText
        (analyzing (Z.of_nat (length (images (session_of collecting_one 7)))))
        Plain;
      EditText recognition_failed],
     inr tt)
  ∧ touch 7 collecting_one = collecting_one.
Proof.
  assert (is_allowed (cfg := everyone) 7 = inr true) as Hallowed
    by (vm_compute; reflexivity).
  assert (images (session_of collecting_one 7) ≠ []) as Himages
    by (by vm_compute).
  destruct (finalize_failure_keeps_session (cfg := everyone) collecting_one 7
              EngineRaises Hallowed Himages) as [Hfail _].
  destruct (Hfail EngineError eq_refl) as (Hrun & _ & Hsame).
  split; [exact Hrun | apply Hsame; by eexists].
Defined.

(** C3 as stated fails: when the adapter fails during review the phase
    stays review, not collecting; and when the adapter returns an object
    followed by a number, the object is committed, the number is not, and
    the shipments are neither all the drafts nor what they were. *)
Lemma finalize_is_not_all_or_nothing :
  process_invoices EngineRaises = inl EngineError
  ∧ phase_of
      (session_of (cmd_done (cfg := everyone) 7 EngineRaises reviewing).1.1 7)
    = review
  ∧ process_invoices (EngineMessage [TextBlock "[{}, 5]"])
    = inr [JObj ∅; JInt 5]
  ∧ shipments (session_of collecting_one 7) = []
  ∧ shipments
      (session_of
         (cmd_done (cfg := everyone) 7 (EngineMessage [TextBlock "[{}, 5]"])
            collecting_one).1.1 7)
    = [augmented ∅]
  ∧ phase_of
      (session_of
         (cmd_done (cfg := everyone) 7 (EngineMessage [TextBlock "[{}, 5]"])
            collecting_one).1.1 7)
    = collecting.
Proof. repeat split; vm_compute; reflexivity. Qed.

(** One empty draft becomes one shipment under review. *)
Lemma finalize_builds_shipments_witness :
  ∃ out,
    cmd_done (cfg := everyone) 7 (EngineMessage [TextBlock "[{}]"])
      collecting_one
    = (<[7 := {| images := images (session_of collecting_one 7);
                 phase_of := review;
                 shipments := augmented <$> [∅] |}]> collecting_one,
       out, inr tt).
Proof.
  assert (is_allowed (cfg := everyone) 7 = inr true) as Hallowed
    by (vm_compute; reflexivity).
  assert (images (session_of collecting_one 7) ≠ []) as Himages
    by (by vm_compute).
  assert (process_invoices (EngineMessage [TextBlock "[{}]"])
          = inr (JObj <$> [∅])) as Hreply by (vm_compute; reflexivity).
  destruct (finalize_builds_shipments (cfg := everyone) collecting_one 7
              (EngineMessage [TextBlock "[{}]"]) Hallowed) as [Hbuild _].
  exact (Hbuild Himages [∅] Hreply).
Defined.

(** The engine answers with an empty array. *)
Lemma finalize_empty_then_tickets_witness :
  let reviewed : store :=
    <[7 := {| images := images (session_of collecting_one 7);
              phase_of := review; shipments := [] |}]> collecting_one in
  cmd_done (cfg := everyone) 7 (EngineMessage [TextBlock "[]"]) collecting_one
  = (reviewed,
     [ReplyText
        (analyzing (Z.of_nat (length (images (session_of collecting_one 7)))))
        Plain;
      ReplyText found_one Markdown],
     inr tt)
  ∧ cmd_tickets (cfg := everyone) 7 reviewed
    = (reviewed, [ReplyText no_shipments Plain], inr tt).
Proof.
  assert (is_allowed (cfg := everyone) 7 = inr true) as Hallowed
    by (vm_compute; reflexivity).
  assert (images (session_of collecting_one 7) ≠ []) as Himages
    by (by vm_compute).
  assert (process_invoices (EngineMessage [TextBlock "[]"]) = inr [])
    as Hreply by (vm_compute; reflexivity).
  exact (finalize_empty_then_tickets (cfg := everyone) collecting_one 7
           (EngineMessage [TextBlock "[]"]) Hallowed Himages Hreply).
Defined.

End Examples.

(* ===================================================================== *)
(** ** One request, one change *)
(* ===================================================================== *)

Section Transitions.
Context {rt : Builtins} {cfg : Config}.

Lemma moves_refl (user_id : Z) (st : store) : moves user_id st st.
Proof. split; [done | constructor]. Qed.

Lemma moves_insert (user_id : Z) (st : store) (s' : session) :
  change (session_of st user_id) s' → moves user_id st (<[user_id := s']> st).
Proof.
  intros Hchange. split.
  - intros u Hu. by rewrite lookup_insert_ne.
  - by rewrite session_of_insert.
Qed.

Lemma moves_touch (user_id : Z) (st : store) :
  moves user_id st (touch user_id st).
Proof. apply moves_insert. constructor. Qed.

Lemma quiet_send_ticket (i : nat) (s : dict) : quiet (send_ticket i s).
Proof.
  unfold send_ticket. destruct (s !! "paymentApproved");
    [apply quiet_send | apply quiet_raise].
Qed.

Lemma cmd_start_moves (user_id : Z) (st : store) :
  moves user_id st (cmd_start user_id st).1.1.
Proof.
  unfold cmd_start, bind, lift.
  destruct (is_allowed user_id) as [e|[]]; cbn; try apply moves_refl.
  apply moves_insert. constructor.
Qed.

Lemma cmd_clear_moves (user_id : Z) (st : store) :
  moves user_id st (cmd_clear user_id st).1.1.
Proof. cbn. apply moves_insert. constructor. Qed.

Lemma cmd_tickets_moves (user_id : Z) (st : store) :
  moves user_id st (cmd_tickets user_id st).1.1.
Proof.
  unfold cmd_tickets.
  destruct (is_allowed user_id) as [e|[]] eqn:Hallowed.
  - rewrite (bind_raises _ _ st st [] e) by reflexivity.
    apply moves_refl.
  - rewrite (bind_silent _ _ st st true) by reflexivity.
    cbn [negb].
    rewrite (bind_silent _ _ _ _ _ (get_session_run _ _)).
    case_bool_decide; [apply moves_touch|].
    rewrite quiet_for_each; [apply moves_touch|].
    intros [i s]. apply quiet_send_ticket.
  - rewrite (bind_silent _ _ st st false) by reflexivity.
    apply moves_refl.
Qed.

Lemma handle_photo_moves (user_id : Z) (photo : option string) (st : store) :
  moves user_id st (handle_photo user_id photo st).1.1.
Proof.
  unfold handle_photo.
  destruct (is_allowed user_id) as [e|[]] eqn:Hallowed.
  - rewrite (bind_raises _ _ st st [] e) by reflexivity.
    apply moves_refl.
  - rewrite (bind_silent _ _ st st true) by reflexivity.
    cbn [negb].
    rewrite (bind_silent _ _ _ _ _ (get_session_run _ _)).
    destruct (phase_of (session_of st user_id)) eqn:Hphase.
    + rewrite (bind_silent _ _ _ (touch user_id st) tt) by reflexivity.
      destruct photo as [img|]; [|apply moves_touch].
      unfold bind. rewrite update_touch, current_insert. cbn.
      apply moves_insert. by constructor.
    + unfold bind. rewrite update_touch, !update_insert.
      destruct photo as [img|]; cbn.
      * rewrite alter_insert_eq. cbn.
        apply moves_insert. by apply (change_restart _ [img]).
      * apply moves_insert. by apply (change_restart _ []).
  - rewrite (bind_silent _ _ st st false) by reflexivity.
    apply moves_refl.
Qed.

(** The loop of [cmd_done] on any drafts: it appends the objects at the
    front and stops with [TypeError] at the first draft that is not one. *)
Lemma commit_loop_any (user_id : Z) (drafts : list json) (ses : session)
    (st : store) :
  for_each drafts (λ s,
      let* d := lift (new_shipment s) in
      update user_id (λ ses, set_shipments (shipments ses ++ [d]) ses))
    (<[user_id := ses]> st)
  = (<[user_id := set_shipments
         (shipments ses ++ (augmented <$> object_prefix drafts)) ses]> st,
     [], if all_objects drafts then inr tt else inl TypeError).
Proof.
  assert (∀ ses0 : session,
            set_shipments (shipments ses0 ++ []) ses0 = ses0) as Hsame.
  { intros [? ? ?]. unfold set_shipments. cbn. by rewrite app_nil_r. }
  revert ses. induction drafts as [|x drafts IH]; intros ses.
  - cbn. by rewrite Hsame.
  - cbn [for_each].
    destruct x as [| | | | |l|d];
      try (rewrite (bind_raises _ _ _ (<[user_id := ses]> st) [] TypeError)
             by reflexivity;
           cbn; by rewrite Hsame).
    rewrite (bind_silent _ _ _
               (<[user_id := set_shipments (shipments ses ++ [augmented d]) ses]> st)
               tt).
    + rewrite IH. cbn [shipments set_shipments object_prefix all_objects fmap
                        list_fmap].
      by rewrite <- app_assoc.
    + rewrite (bind_silent _ _ _ (<[user_id := ses]> st) (augmented d))
        by reflexivity.
      apply (update_insert user_id
               (λ ses, set_shipments (shipments ses ++ [augmented d]) ses)).
Qed.

Lemma cmd_done_try_stops (user_id : Z) (reply : engine_reply)
    (drafts : list json) (ses : session) (st : store) :
  process_invoices reply = inr drafts →
  all_objects drafts = false →
  cmd_done_try user_id reply (<[user_id := ses]> st)
  = (<[user_id := set_shipments (augmented <$> object_prefix drafts) ses]> st,
     [], inl TypeError).
Proof.
  intros Hreply Hsome. unfold cmd_done_try. rewrite Hreply.
  rewrite (bind_silent _ _ _ (<[user_id := ses]> st) drafts) by reflexivity.
  rewrite (bind_silent _ _ _ _ tt (update_insert _ _ _ _)).
  erewrite bind_raises; [reflexivity|].
  rewrite commit_loop_any, Hsome. reflexivity.
Qed.

Lemma all_objects_prefix (drafts : list json) :
  all_objects drafts = true → drafts = JObj <$> object_prefix drafts.
Proof.
  induction drafts as [|x drafts IH]; [done|].
  destruct x; try done. cbn. intros H. by rewrite <- IH.
Qed.

Lemma cmd_done_partial (st : store) (user_id : Z)
    (reply : engine_reply) (drafts : list json) :
  is_allowed user_id = inr true →
  images (session_of st user_id) ≠ [] →
  process_invoices reply = inr drafts →
  all_objects drafts = false →
  cmd_done user_id reply st
  = (<[user_id := set_shipments (augmented <$> object_prefix drafts)
                    (session_of st user_id)]> st,
     [ReplyText
        (analyzing (Z.of_nat (length (images (session_of st user_id))))) Plain;
      EditText recognition_failed],
     inr tt).
Proof.
  intros Hallowed Himages Hreply Hsome.
  rewrite cmd_done_enters_try by done. unfold try_except, touch.
  by rewrite (cmd_done_try_stops _ _ drafts).
Qed.

(** X5.  a draft that is not an object.  For an allowed user with images,
    when the adapter returns drafts of which one is not an object, [/done]
    leaves as shipments exactly the objects that come before the first
    such draft, keeps phase and images, and reports the recognition
    error. *)
Theorem cmd_done_stops_at_non_object (st : store) (user_id : Z)
    (reply : engine_reply) (drafts : list json) :
  is_allowed user_id = inr true →
  images (session_of st user_id) ≠ [] →
  process_invoices reply = inr drafts →
  all_objects drafts = false →
  cmd_done user_id reply st
  = (<[user_id := set_shipments (augmented <$> object_prefix drafts)
                    (session_of st user_id)]> st,
     [ReplyText
        (analyzing (Z.of_nat (length (images (session_of st user_id))))) Plain;
      EditText recognition_failed],
     inr tt).
Proof.
  intros Hallowed Himages Hreply Hsome.
  rewrite cmd_done_enters_try by done. unfold try_except, touch.
  rewrite (cmd_done_try_stops _ _ drafts) by done.
  reflexivity.
Qed.

Lemma cmd_done_moves (user_id : Z) (reply : engine_reply) (st : store) :
  moves user_id st (cmd_done user_id reply st).1.1.
Proof.
  destruct (is_allowed user_id) as [e|[]] eqn:Hallowed.
  - unfold cmd_done.
    rewrite (bind_raises _ _ st st [] e) by (unfold lift; by rewrite Hallowed).
    apply moves_refl.
  - destruct (decide (images (session_of st user_id) = [])) as [Hnone|Hsome].
    { rewrite cmd_done_no_images by done. apply moves_touch. }
    destruct (process_invoices reply) as [e|drafts] eqn:Hreply.
    { rewrite (cmd_done_adapter_fails _ _ _ e) by done. apply moves_touch. }
    destruct (all_objects drafts) eqn:Hall.
    + apply all_objects_prefix in Hall. rewrite Hall in Hreply.
      destruct (cmd_done_commits st user_id reply _ Hallowed Hsome Hreply)
        as (out & ->).
      apply moves_insert. by constructor.
    + rewrite (cmd_done_partial _ _ _ drafts) by done.
      apply moves_insert. constructor.
  - unfold cmd_done.
    rewrite (bind_silent _ _ st st false) by (unfold lift; by rewrite Hallowed).
    apply moves_refl.
Qed.

Lemma set_field_moves (user_id idx : Z) (key : string) (v : json)
    (st : store) :
  (set_field user_id idx key v (touch user_id st)).1.1 = touch user_id st
  ∨ ∃ k, (set_field user_id idx key v (touch user_id st)).1.1
         = <[user_id := set_shipments
               (alter (insert key v) k (shipments (session_of st user_id)))
               (session_of st user_id)]> st.
Proof.
  unfold set_field.
  rewrite (bind_silent _ _ _ _ _ (current_touch _ _)).
  destruct (py_index (shipments (session_of st user_id)) idx) as [k|];
    [right; exists k | by left].
  unfold touch. by rewrite update_insert.
Qed.

Lemma handle_callback_moves (user_id : Z) (data : string) (st : store) :
  moves user_id st (handle_callback user_id data st).1.1.
Proof.
  assert (∀ idx b (k : unit → M unit),
            (∀ u, quiet (k u)) →
            moves user_id st
              (bind (set_field user_id idx "paymentApproved" (JBool b)) k
                 (touch user_id st)).1.1) as Hset.
  { intros idx b k Hk. unfold bind.
    destruct (set_field_moves user_id idx "paymentApproved" (JBool b) st)
      as [Hsame | [j Hj]];
      destruct (set_field user_id idx "paymentApproved" (JBool b)
                  (touch user_id st)) as [[st1 out1] [e|[]]];
      cbn in *; subst st1; try apply moves_touch;
      try (apply moves_insert; constructor).
    - specialize (Hk tt (touch user_id st)).
      destruct (k tt (touch user_id st)) as [[st2 out2] r]. cbn in *.
      subst. apply moves_touch.
    - match goal with |- context [k tt ?s] =>
        specialize (Hk tt s); destruct (k tt s) as [[st2 out2] r] end.
      cbn in *. subst. apply moves_insert. constructor. }
  unfold handle_callback.
  unfold bind at 1. unfold send at 1.
  rewrite (bind_silent _ _ _ _ _ (get_session_run _ _)).
  assert (∀ m : M unit,
            moves user_id st (m (touch user_id st)).1.1 →
            moves user_id st
              (let (p, r) := m (touch user_id st) in
               let (st2, out2) := p in (st2, [AnswerQuery] ++ out2, r)).1.1)
    as Hwrap.
  { intros m Hm. by destruct (m (touch user_id st)) as [[? ?] ?]. }
  apply Hwrap.
  destruct (callback_index data) as [e|idx] eqn:Hidx.
  - repeat case_match; try apply moves_touch;
      rewrite (bind_raises _ _ _ (touch user_id st) [] e) by reflexivity;
      apply moves_touch.
  - repeat (case_match; try apply moves_touch);
      rewrite (bind_silent _ _ _ (touch user_id st) idx) by reflexivity;
      case_bool_decide; try apply moves_touch;
      try (apply Hset; intros; apply quiet_bind;
           [apply quiet_send | intros; apply quiet_send]).
    all: repeat case_match; apply moves_touch.
Qed.

Lemma cmd_order_moves (user_id : Z) (args : list string) (st : store) :
  moves user_id st (cmd_order user_id args st).1.1.
Proof.
  unfold cmd_order.
  destruct (is_allowed user_id) as [e|[]] eqn:Hallowed.
  - rewrite (bind_raises _ _ st st [] e) by reflexivity. apply moves_refl.
  - rewrite (bind_silent _ _ st st true) by reflexivity. cbn [negb].
    rewrite (bind_silent _ _ _ _ _ (get_session_run _ _)).
    destruct args as [|first [|second rest]]; try apply moves_touch.
    unfold try_except.
    destruct (int first) as [e|n] eqn:Hint.
    + rewrite (bind_raises _ _ _ (touch user_id st) [] e) by reflexivity.
      destruct e; apply moves_touch.
    + rewrite (bind_silent _ _ _ (touch user_id st) n) by reflexivity.
      destruct (bool_decide (0 ≤ n - 1)
                && bool_decide
                     (n - 1 < Z.of_nat
                        (length (shipments (session_of st user_id)))));
        [|apply moves_touch].
      unfold bind.
      destruct (set_field_moves user_id (n - 1) "orderNumber"
                  (JStr (join " " (second :: rest))) st) as [Hsame | [k Hk]];
        destruct (set_field user_id (n - 1) "orderNumber"
                    (JStr (join " " (second :: rest))) (touch user_id st))
          as [[st1 out1] [e|[]]];
        cbn in *; subst st1;
        try (destruct e); try apply moves_touch;
        apply moves_insert; constructor.
  - rewrite (bind_silent _ _ st st false) by reflexivity. apply moves_refl.
Qed.

Lemma handle_step (user_id : Z) (r : request) (st : store) :
  moves user_id st (handle user_id r st).1.1.
Proof.
  destruct r; cbn [handle].
  - apply cmd_start_moves.
  - apply moves_refl.
  - apply cmd_clear_moves.
  - apply cmd_done_moves.
  - apply cmd_order_moves.
  - apply cmd_tickets_moves.
  - apply handle_photo_moves.
  - apply handle_callback_moves.
Qed.

(** X1.  one request, one change.  Whatever the request and whatever the
    outside world answers, a handler leaves the entries of all other users
    as they were, and the session of the user who sent the request either
    stays the same or is reset, gains the new image, restarts from review,
    receives committed shipments, or has one approval flag or one order
    number set. *)
Theorem handle_moves (user_id : Z) (r : request) (st : store) :
  (∀ u, u ≠ user_id → (handle user_id r st).1.1 !! u = st !! u)
  ∧ change (session_of st user_id)
      (session_of (handle user_id r st).1.1 user_id).
Proof.
  change (moves user_id st (handle user_id r st).1.1).
  destruct r as [| | |reply|args| |photo|data]; cbn [handle].
  - apply cmd_start_moves.
  - apply moves_refl.
  - apply cmd_clear_moves.
  - apply cmd_done_moves.
  - apply cmd_order_moves.
  - apply cmd_tickets_moves.
  - apply handle_photo_moves.
  - apply handle_callback_moves.
Qed.

(** X2.  users are isolated.  No request of one user changes what the store
    holds for another user, over any sequence of requests. *)
Theorem replay_isolated (log : list (Z * request)) (st : store) (u : Z) :
  Forall (λ entry, entry.1 ≠ u) log →
  replay log st !! u = st !! u.
Proof.
  revert st. induction log as [|[user_id r] log IH]; intros st Hlog; [done|].
  apply Forall_cons in Hlog as [Hhead Hlog]. cbn [replay].
  rewrite IH by done.
  destruct (handle_step user_id r st) as [Hothers _].
  apply Hothers. cbn in Hhead. congruence.
Qed.

End Transitions.

(* ===================================================================== *)
(** ** What every reachable session satisfies *)
(* ===================================================================== *)

Section Invariant.
Context {rt : Builtins} {cfg : Config}.

Lemma augmented_ok (d : dict) : shipment_ok (augmented d).
Proof.
  destruct (augmented_fields d) as (Horder & Hflag & _).
  split; by eexists.
Qed.

Lemma insert_flag_ok (b : bool) (d : dict) :
  shipment_ok d → shipment_ok (<["paymentApproved" := JBool b]> d).
Proof.
  intros [_ [o Ho]]. split.
  - exists b. by rewrite lookup_insert_eq.
  - exists o. by rewrite lookup_insert_ne.
Qed.

Lemma insert_order_ok (o : string) (d : dict) :
  shipment_ok d → shipment_ok (<["orderNumber" := JStr o]> d).
Proof.
  intros [[b Hb] _]. split.
  - exists b. by rewrite lookup_insert_ne.
  - exists o. by rewrite lookup_insert_eq.
Qed.

Lemma Forall_alter_ok (f : dict → dict) (k : nat) (l : list dict) :
  (∀ d, shipment_ok d → shipment_ok (f d)) →
  Forall shipment_ok l → Forall shipment_ok (alter f k l).
Proof.
  intros Hf Hl. revert k. induction Hl as [|d l Hd Hl IH]; intros k; [done|].
  destruct k as [|k]; cbn; constructor; auto.
Qed.

Lemma change_ok (s s' : session) :
  session_ok s → change s s' → session_ok s'.
Proof.
  intros [Himages Hships] Hchange.
  destruct Hchange; split; cbn; try done.
  - intros _ Hnil. by apply app_eq_nil in Hnil as [_ ?].
  - eapply Forall_fmap, Forall_true. intros d. apply augmented_ok.
  - eapply Forall_fmap, Forall_true. intros d. apply augmented_ok.
  - apply Forall_alter_ok; [apply insert_flag_ok | done].
  - apply Forall_alter_ok; [apply insert_order_ok | done].
Qed.

(** X3.  the invariant of the sessions.  Starting from the empty store,
    after any sequence of requests by any users with any answers from the
    outside world, every session in phase review holds at least one image,
    and every shipment has a boolean ["paymentApproved"] and a string
    ["orderNumber"]. *)
Theorem replay_ok (log : list (Z * request)) (u : Z) :
  session_ok (session_of (replay log ∅) u).
Proof.
  assert (∀ st, (∀ v, session_ok (session_of st v)) →
                ∀ v, session_ok (session_of (replay log st) v)) as Hgen.
  { induction log as [|[user_id r] log IH]; intros st Hst v; [apply Hst|].
    cbn [replay]. apply IH. intros w.
    destruct (handle_step user_id r st) as [Hothers Hchange].
    destruct (decide (w = user_id)) as [->|Hne].
    - eapply change_ok; [apply Hst | exact Hchange].
    - unfold session_of. rewrite Hothers by done. apply Hst. }
  apply Hgen. intros v. unfold session_of. rewrite lookup_empty. cbn.
  split; [done | constructor].
Qed.

Lemma send_ticket_run (i : nat) (d : dict) (st : store) :
  shipment_ok d → send_ticket i d st = (st, [ticket_reply i d], inr tt).
Proof.
  intros [[b Hb] _]. unfold send_ticket, ticket_reply, get_none.
  by rewrite Hb.
Qed.

Lemma tickets_loop (l : list dict) (n : nat) (st : store) :
  Forall shipment_ok l →
  for_each (imap (λ i d, (n + i, d)%nat) l) (λ '(i, s), send_ticket i s) st
  = (st, imap (λ i d, ticket_reply (n + i) d) l, inr tt).
Proof.
  intros Hl. revert n. induction Hl as [|d l Hd Hl IH]; intros n; [done|].
  cbn [imap for_each]. unfold bind.
  rewrite send_ticket_run by done.
  rewrite (imap_ext _ (λ i d, (S n + i, d)%nat) l)
    by (intros; cbn; f_equal; lia).
  rewrite IH.
  rewrite (imap_ext (λ i d, ticket_reply (S n + i) d)
             ((λ i d, ticket_reply (n + i) d) ∘ S) l)
    by (intros; cbn; f_equal; lia).
  reflexivity.
Qed.

(** X4.  bulk tickets.  For an allowed user whose session has shipments,
    each with its approval flag and order number (as every reachable
    session has), [/tickets] changes nothing in the store, raises nothing
    and sends exactly one ticket message per shipment, in index order. *)
Theorem cmd_tickets_sends_all (st : store) (user_id : Z) :
  is_allowed user_id = inr true →
  shipments (session_of st user_id) ≠ [] →
  Forall shipment_ok (shipments (session_of st user_id)) →
  cmd_tickets user_id st
  = (st, imap ticket_reply (shipments (session_of st user_id)), inr tt).
Proof.
  intros Hallowed Hsome Hok. unfold cmd_tickets.
  rewrite (bind_silent _ _ st st true) by (unfold lift; by rewrite Hallowed).
  cbn [negb].
  rewrite (bind_silent _ _ _ _ _ (get_session_run _ _)).
  rewrite bool_decide_eq_false_2 by done.
  assert (touch user_id st = st) as ->.
  { apply touch_id. unfold session_of in Hsome.
    destruct (st !! user_id); [by eexists | done]. }
  apply (tickets_loop _ 0%nat). done.
Qed.

End Invariant.

(* ===================================================================== *)
(** ** Collecting photos *)
(* ===================================================================== *)

Section Collecting.
Context {rt : Builtins} {cfg : Config}.

Lemma handle_photo_collects (st : store) (user_id : Z) (img : string) :
  is_allowed user_id = inr true →
  phase_of (session_of st user_id) = collecting →
  handle_photo user_id (Some img) st
  = (<[user_id := set_images (images (session_of st user_id) ++ [img])
                    (session_of st user_id)]> st,
     [ReplyText
        ("✅ Фото " +:+
           fmt_int (Z.of_nat (length (images (session_of st user_id) ++ [img])))
           +:+ " загружено." +:+ nl +:+
         "Отправьте ещё фото или нажмите /done для распознавания.") Plain],
     inr tt).
Proof.
  intros Hallowed Hphase.
  unfold handle_photo, bind, lift. rewrite Hallowed. cbn [negb].
  rewrite get_session_run, Hphase. cbn [ret].
  rewrite update_touch, current_insert.
  reflexivity.
Qed.

(** X7.  photos accumulate.  For an allowed user whose session is
    collecting, a run of received photos appends exactly those photos, in
    arrival order, to the images of the session, and changes neither phase
    nor shipments. *)
Theorem photos_accumulate (st : store) (user_id : Z) (imgs : list string) :
  is_allowed user_id = inr true →
  phase_of (session_of st user_id) = collecting →
  session_of
    (replay ((λ img, (user_id, Photo (Some img))) <$> imgs) st) user_id
  = set_images (images (session_of st user_id) ++ imgs)
      (session_of st user_id).
Proof.
  intros Hallowed. revert st.
  induction imgs as [|img imgs IH]; intros st Hphase.
  - cbn. rewrite app_nil_r. by destruct (session_of st user_id).
  - cbn [fmap list_fmap replay handle].
    rewrite handle_photo_collects by done. cbn [fst].
    rewrite IH by (by rewrite session_of_insert).
    rewrite session_of_insert. unfold set_images. cbn.
    by rewrite <- app_assoc.
Qed.

(** X8.  a photo that cannot be downloaded.  For an allowed user,
    [handle_photo] raises when the download fails; a collecting session is
    then unchanged, but a session in review has already been emptied: its
    images and shipments are gone although no new image arrived. *)
Theorem handle_photo_download_fails (st : store) (user_id : Z) :
  is_allowed user_id = inr true →
  (phase_of (session_of st user_id) = collecting →
   handle_photo user_id None st = (touch user_id st, [], inl TelegramError))
  ∧ (phase_of (session_of st user_id) = review →
     handle_photo user_id None st
     = (<[user_id := {| images := []; phase_of := collecting;
                        shipments := [] |}]> st,
        [], inl TelegramError)).
Proof.
  intros Hallowed.
  split; intros Hphase;
    unfold handle_photo, bind, lift; rewrite Hallowed; cbn [negb];
    rewrite get_session_run, Hphase.
  - reflexivity.
  - rewrite update_touch, !update_insert. reflexivity.
Qed.

End Collecting.

(* ===================================================================== *)
(** ** Editing and reading shipments *)
(* ===================================================================== *)

Section Editing.
Context {rt : Builtins} {cfg : Config}.

Lemma cmd_order_run (st : store) (user_id num : Z)
    (first second : string) (rest : list string) :
  is_allowed user_id = inr true →
  py_int first = Some num →
  0 ≤ num - 1 < Z.of_nat (length (shipments (session_of st user_id))) →
  cmd_order user_id (first :: second :: rest) st
  = (<[user_id := set_shipments
         (alter (insert "orderNumber" (JStr (join " " (second :: rest))))
            (Z.to_nat (num - 1)) (shipments (session_of st user_id)))
         (session_of st user_id)]> st,
     [ReplyText
        ("✅ Посылка " +:+ fmt_int (num - 1 + 1) +:+
         ": номер заказа установлен → `" +:+ join " " (second :: rest) +:+ "`")
        Markdown],
     inr tt).
Proof.
  intros Hallowed Hnum Hrange.
  unfold cmd_order, bind, lift. rewrite Hallowed. cbn [negb].
  rewrite get_session_run.
  unfold try_except, bind, lift, int. rewrite Hnum.
  rewrite !bool_decide_eq_true_2 by lia. cbn [andb].
  unfold touch. rewrite set_field_run by done. reflexivity.
Qed.

(** X9.  setting an order number.  For an allowed user, [/order n tokens...]
    with [1 <= n <= len(shipments)] stores the tokens, joined by single
    spaces, as the order number of shipment [n] (position [n - 1]), leaves
    every other shipment and every other field of that shipment as they
    were, and confirms. *)
Theorem cmd_order_sets (st : store) (user_id num : Z)
    (first second : string) (rest : list string) :
  is_allowed user_id = inr true →
  py_int first = Some num →
  0 ≤ num - 1 < Z.of_nat (length (shipments (session_of st user_id))) →
  let order_num := join " " (second :: rest) in
  let old := shipments (session_of st user_id) in
  let new := alter (insert "orderNumber" (JStr order_num))
               (Z.to_nat (num - 1)) old in
  cmd_order user_id (first :: second :: rest) st
  = (<[user_id := set_shipments new (session_of st user_id)]> st,
     [ReplyText
        ("✅ Посылка " +:+ fmt_int (num - 1 + 1) +:+
         ": номер заказа установлен → `" +:+ order_num +:+ "`") Markdown],
     inr tt)
  ∧ (∀ j, j ≠ Z.to_nat (num - 1) → new !! j = old !! j)
  ∧ (∀ d, old !! Z.to_nat (num - 1) = Some d →
       new !! Z.to_nat (num - 1)
       = Some (<["orderNumber" := JStr order_num]> d)).
Proof.
  intros Hallowed Hnum Hrange order_num old new. split; [|split].
  - by apply cmd_order_run.
  - intros j Hj. unfold new. by rewrite list_lookup_alter_ne.
  - intros d Hd. unfold new. by rewrite list_lookup_alter_eq, Hd.
Qed.

(** X10.  a malformed [/order].  For an allowed user, [/order] with fewer
    than two arguments answers with the usage text, and [/order] whose
    first argument [int] rejects answers with the format error; in both
    cases no session changes. *)
Theorem cmd_order_malformed (st : store) (user_id : Z) :
  is_allowed user_id = inr true →
  (∀ args, (length args < 2)%nat →
     cmd_order user_id args st
     = (touch user_id st,
        [ReplyText ("Формат: `/order 1 ABC123`" +:+ nl +:+
                    "где 1 — номер посылки, ABC123 — номер заказа") Markdown],
        inr tt))
  ∧ (∀ first second rest, py_int first = None →
       cmd_order user_id (first :: second :: rest) st
       = (touch user_id st,
          [ReplyText "❌ Неверный формат. Используйте: `/order 1 ABC123`"
             Markdown],
          inr tt))
  ∧ (∀ u, session_of (touch user_id st) u = session_of st u).
Proof.
  intros Hallowed. split; [|split].
  - intros args Hlen. unfold cmd_order, bind, lift. rewrite Hallowed.
    cbn [negb]. rewrite get_session_run.
    destruct args as [|x [|y args]]; [reflexivity | reflexivity |].
    cbn in Hlen. lia.
  - intros first second rest Hnone. unfold cmd_order, bind, lift.
    rewrite Hallowed. cbn [negb]. rewrite get_session_run.
    unfold try_except, bind, lift, int. rewrite Hnone. reflexivity.
  - intros u. apply session_of_touch.
Qed.

(** X11.  order number and approval commute.  For an allowed user, setting
    the order number of one shipment and pressing an approve or reject
    button of a shipment (the same or another, both within range) lead to
    the same store in either order. *)
Theorem order_and_approval_commute (st : store) (user_id idx num : Z)
    (data first second : string) (rest : list string) (v : bool) :
  approval_button data v →
  callback_index data = inr idx →
  0 ≤ idx < Z.of_nat (length (shipments (session_of st user_id))) →
  is_allowed user_id = inr true →
  py_int first = Some num →
  0 ≤ num - 1 < Z.of_nat (length (shipments (session_of st user_id))) →
  (cmd_order user_id (first :: second :: rest)
     (handle_callback user_id data st).1.1).1.1
  = (handle_callback user_id data
       (cmd_order user_id (first :: second :: rest) st).1.1).1.1.
Proof.
  intros Hbutton Hidx Hrange Hallowed Hnum Hrange'.
  rewrite (handle_callback_sets st user_id idx data v) by done.
  rewrite (cmd_order_run st user_id num first second rest Hallowed Hnum
             Hrange').
  cbn [fst].
  rewrite (handle_callback_sets _ user_id idx data v); try done.
  2: { rewrite session_of_insert. cbn. by rewrite length_alter. }
  rewrite (cmd_order_run _ user_id num first second rest Hallowed Hnum)
    by (rewrite session_of_insert; cbn; by rewrite length_alter).
  cbn [fst]. rewrite !session_of_insert, !insert_insert_eq.
  f_equal. unfold set_shipments. cbn. f_equal.
  destruct (decide (Z.to_nat (num - 1) = Z.to_nat idx)) as [->|Hne].
  - rewrite !list_alter_alter_eq. apply list_alter_ext; [|done].
    intros d _. cbn. by apply insert_insert_ne.
  - by apply list_alter_alter_ne.
Qed.

Lemma ticket_prefix_exclusive (data : string) :
  startswith data "ticket_" = true →
  startswith data "approve_" = false ∧ startswith data "reject_" = false.
Proof.
  unfold startswith. destruct data as [|c data]; [done|].
  cbn [chars list_ascii_of_string drop_prefix].
  destruct (decide (c = "t"%char)) as [->|Hne].
  - intros _. split; reflexivity.
  - rewrite (bool_decide_eq_false_2 ("t"%char = c)) by congruence.
    intros Hfalse. apply bool_decide_eq_true in Hfalse.
    by destruct Hfalse.
Qed.

(** X12.  the ticket button reads only.  A ticket button with an index
    within [0, len(shipments)) changes no session and answers with the
    ticket of that shipment, rendered with the approval flag the shipment
    holds. *)
Theorem ticket_button_reads (st : store) (user_id idx : Z) (data : string)
    (d : dict) (approved : json) :
  startswith data "ticket_" = true →
  callback_index data = inr idx →
  0 ≤ idx →
  shipments (session_of st user_id) !! Z.to_nat idx = Some d →
  d !! "paymentApproved" = Some approved →
  handle_callback user_id data st
  = (touch user_id st,
     [AnswerQuery;
      ReplyText
        ("📝 *Тикет — Посылка " +:+ fmt_int (idx + 1) +:+ ":*" +:+
         nl +:+ nl +:+ "`" +:+ generate_ticket d approved +:+ "`") Markdown],
     inr tt)
  ∧ (∀ u, session_of (touch user_id st) u = session_of st u).
Proof.
  intros Hticket Hidx Hlo Hd Happroved.
  destruct (ticket_prefix_exclusive data Hticket) as [Happrove Hreject].
  assert (0 ≤ idx < Z.of_nat (length (shipments (session_of st user_id))))
    as Hrange.
  { split; [done|]. apply lookup_lt_Some in Hd. lia. }
  split; [|intros u; apply session_of_touch].
  unfold handle_callback, bind, send, lift.
  rewrite get_session_run, Happrove, Hreject, Hticket, Hidx.
  rewrite bool_decide_eq_true_2 by lia.
  rewrite py_index_in_range by done.
  rewrite Hd, Happroved. reflexivity.
Qed.

(** X13.  negative button indices.  The buttons compare the index only with
    the number of shipments, so an approve or reject button with index
    [-k], for [1 <= k <= len(shipments)], sets the flag of the k-th
    shipment from the end, as [list[-k]] does in Python; below
    [-len(shipments)] the handler raises [IndexError] and no session
    changes. *)
Theorem button_negative_index (st : store) (user_id idx : Z) (data : string)
    (v : bool) :
  approval_button data v →
  callback_index data = inr idx →
  idx < 0 →
  let n := Z.of_nat (length (shipments (session_of st user_id))) in
  (0 ≤ idx + n →
   (handle_callback user_id data st).1.1
   = <[user_id := set_shipments
         (alter (insert "paymentApproved" (JBool v)) (Z.to_nat (idx + n))
            (shipments (session_of st user_id)))
         (session_of st user_id)]> st)
  ∧ (idx + n < 0 →
     handle_callback user_id data st
     = (touch user_id st, [AnswerQuery], inl IndexError)).
Proof.
  intros Hbutton Hidx Hneg n.
  assert (∀ key val,
            set_field user_id idx key val (touch user_id st)
            = if bool_decide (0 ≤ idx + n)
              then (<[user_id := set_shipments
                       (alter (insert key val) (Z.to_nat (idx + n))
                          (shipments (session_of st user_id)))
                       (session_of st user_id)]> st, [], inr tt)
              else (touch user_id st, [], inl IndexError)) as Hset.
  { intros key val. unfold set_field, bind, touch.
    rewrite current_insert. unfold py_index. fold n.
    rewrite (proj2 (Z.leb_gt _ _) Hneg), (proj2 (Z.ltb_lt _ _) Hneg).
    cbn [andb].
    case_bool_decide.
    - rewrite (proj2 (Z.leb_le _ _)) by done. by rewrite update_insert.
    - rewrite (proj2 (Z.leb_gt _ _)) by lia. reflexivity. }
  split; intros Hcase;
    unfold handle_callback, bind, send, lift;
    rewrite get_session_run;
    destruct Hbutton as [[-> ->] | (-> & -> & ->)];
    rewrite Hidx; rewrite bool_decide_eq_true_2 by lia;
    rewrite Hset;
    [rewrite bool_decide_eq_true_2 by done
    |rewrite bool_decide_eq_true_2 by done
    |rewrite bool_decide_eq_false_2 by lia
    |rewrite bool_decide_eq_false_2 by lia];
    reflexivity.
Qed.

End Editing.

(* ===================================================================== *)
(** ** More on tickets, cards and the allow-list *)
(* ===================================================================== *)

Section More.
Context {rt : Builtins} {cfg : Config}.


Lemma parse_ids_rejects (xs : list string) (x : string) :
  x ∈ xs → strip x ≠ EmptyString → py_int (strip x) = None →
  parse_ids xs = inl ValueError.
Proof.
  intros Hx Hsome Hnone. induction xs as [|y xs IH]; [by apply elem_of_nil in Hx|].
  cbn [parse_ids].
  apply elem_of_cons in Hx as [<-|Hx].
  - rewrite bool_decide_eq_false_2 by done. unfold int. by rewrite Hnone.
  - specialize (IH Hx). case_bool_decide; [done|].
    unfold int. destruct (py_int (strip y)); [|done]. by rewrite IH.
Qed.

(** X15.  one malformed entry locks everybody out.  When [ALLOWED_USERS]
    holds an entry that is not blank and that [int] rejects, the
    membership check raises [ValueError] for every user, listed or not,
    and [/start], a photo, [/done], [/order] and [/tickets] raise it too,
    before touching the store and without any reply. *)
Theorem malformed_allow_list_raises (x : string) (st : store) (user_id : Z)
    (photo : option string) (reply : engine_reply) (args : list string) :
  x ∈ split ALLOWED_USERS "," →
  strip x ≠ EmptyString →
  py_int (strip x) = None →
  is_allowed user_id = inl ValueError
  ∧ cmd_start user_id st = (st, [], inl ValueError)
  ∧ handle_photo user_id photo st = (st, [], inl ValueError)
  ∧ cmd_done user_id reply st = (st, [], inl ValueError)
  ∧ cmd_order user_id args st = (st, [], inl ValueError)
  ∧ cmd_tickets user_id st = (st, [], inl ValueError).
Proof.
  intros Hx Hsome Hnone.
  assert (is_allowed user_id = inl ValueError) as Hraise.
  { unfold is_allowed.
    destruct (decide (ALLOWED_USERS = EmptyString)) as [Hempty|Hfull].
    - rewrite Hempty in Hx. vm_compute in Hx.
      apply list_elem_of_singleton in Hx. subst x. by vm_compute in Hsome.
    - rewrite bool_decide_eq_false_2 by done.
      by rewrite (parse_ids_rejects _ x). }
  split; [done|].
  unfold cmd_start, handle_photo, cmd_done, cmd_order, cmd_tickets.
  unfold bind, lift. rewrite Hraise. by cbn.
Qed.

Lemma send_shipment_card_raises (st : store) (user_id : Z) (idx : nat)
    (s : dict) (v : json) :
  shipments (session_of st user_id) !! idx = Some s →
  s !! "paymentUrl" = Some v →
  truthy v = true → (∀ u, v ≠ JStr u) →
  send_shipment_card user_id idx st = (st, [], inl AttributeError).
Proof.
  intros Hs Hv Htrue Hnot.
  assert (current user_id st = (st, [], inr (session_of st user_id))) as Hcur
    by reflexivity.
  unfold send_shipment_card.
  rewrite (bind_silent _ _ _ _ _ Hcur), Hs. cbv zeta.
  assert (get s "paymentUrl" "N/A" = v) as ->
    by (unfold get; by rewrite Hv).
  rewrite Htrue.
  destruct v as [| | | |u| |]; try done; cbn [eq_str negb andb];
    try reflexivity.
  by destruct (Hnot u).
Qed.


(** X6.  a card that cannot be built.  For an allowed user with images,
    when the first draft holds a payment URL that is a true value but not
    a string, [/done] commits every draft and moves to review, yet sends no
    card and reports the recognition error. *)
Theorem cmd_done_card_failure (st : store) (user_id : Z)
    (reply : engine_reply) (d : dict) (ds : list dict) (v : json) :
  is_allowed user_id = inr true →
  images (session_of st user_id) ≠ [] →
  process_invoices reply = inr (JObj <$> d :: ds) →
  d !! "paymentUrl" = Some v →
  truthy v = true → (∀ u, v ≠ JStr u) →
  cmd_done user_id reply st
  = (<[user_id := {| images := images (session_of st user_id);
                     phase_of := review;
                     shipments := augmented <$> d :: ds |}]> st,
     [ReplyText
        (analyzing (Z.of_nat (length (images (session_of st user_id))))) Plain;
      EditText recognition_failed],
     inr tt).
Proof.
  intros Hallowed Himages Hreply Hv Htrue Hnot.
  rewrite cmd_done_enters_try by done.
  unfold try_except, touch, cmd_done_try. rewrite Hreply.
  rewrite (bind_silent _ _ _
             (<[user_id := session_of st user_id]> st) (JObj <$> d :: ds))
    by reflexivity.
  rewrite (bind_silent _ _ _ _ tt (update_insert _ _ _ _)).
  rewrite (bind_silent _ _ _ _ tt (commit_loop _ _ _ _)).
  rewrite (bind_silent _ _ _ _ tt (update_insert _ _ _ _)).
  rewrite (bind_silent _ _ _ _ _ (current_insert _ _ _)).
  cbn [shipments set_shipments set_phase images phase_of app fmap list_fmap
       length seq for_each].
  match goal with
  | |- context [bind _ _ ?st1] =>
      assert (send_shipment_card user_id 0 st1
              = (st1, [], inl AttributeError)) as Hcard
  end.
  { apply (send_shipment_card_raises _ _ _ (augmented d) v); try done.
    - by rewrite session_of_insert.
    - unfold augmented. by rewrite !lookup_insert_ne. }
  rewrite (bind_raises _ _ _ _ _ _
             (bind_raises _ _ _ _ _ _ Hcard)).
  reflexivity.
Qed.

End More.

(* ===================================================================== *)
(** ** Decimal numerals *)
(* ===================================================================== *)

Section Decimal.

Lemma pretty_N_char_decimal (x : N) : decimal_char (pretty_N_char x) = true.
Proof. unfold pretty_N_char. by repeat case_match. Qed.

Lemma pretty_N_go_decimal (x : N) (s : string) :
  Forall (λ c, decimal_char c = true) (chars s) →
  Forall (λ c, decimal_char c = true) (chars (pretty_N_go x s)).
Proof.
  revert s. induction (N.lt_wf_0 x) as [x _ IH]; intros s Hs.
  destruct (decide (x = 0%N)) as [->|Hpos]; [by rewrite pretty_N_go_0|].
  rewrite pretty_N_go_step by lia.
  apply IH; [apply N.div_lt; lia|].
  cbn. constructor; [apply pretty_N_char_decimal | done].
Qed.

Lemma pretty_N_go_nonempty (x : N) (s : string) :
  s ≠ EmptyString → pretty_N_go x s ≠ EmptyString.
Proof.
  revert s. induction (N.lt_wf_0 x) as [x _ IH]; intros s Hs.
  destruct (decide (x = 0%N)) as [->|Hpos]; [by rewrite pretty_N_go_0|].
  rewrite pretty_N_go_step by lia.
  apply IH; [apply N.div_lt; lia | done].
Qed.

Lemma fmt_int_decimal (n : Z) :
  fmt_int n ≠ EmptyString
  ∧ Forall (λ c, decimal_char c = true) (chars (fmt_int n)).
Proof.
  assert (∀ p, pretty (N.pos p) ≠ EmptyString
               ∧ Forall (λ c, decimal_char c = true) (chars (pretty (N.pos p))))
    as Hpos.
  { intros p. unfold pretty, pretty_N.
    rewrite decide_False by done. split.
    - rewrite pretty_N_go_step by lia. by apply pretty_N_go_nonempty.
    - apply pretty_N_go_decimal. constructor. }
  unfold fmt_int, pretty, pretty_Z. destruct n as [|p|p].
  - split; [done|]. by repeat constructor.
  - apply Hpos.
  - split; [done|]. cbn. constructor; [done|]. apply Hpos.
Qed.

Lemma split_chars_no_sep (sep : ascii) (cur l : list ascii) :
  sep ∉ l → split_chars sep cur l = [rev cur ++ l].
Proof.
  revert cur. induction l as [|c l IH]; intros cur Hsep.
  - cbn. by rewrite app_nil_r.
  - apply not_elem_of_cons in Hsep as [Hc Hl]. cbn [split_chars].
    rewrite bool_decide_eq_false_2 by done.
    rewrite IH by done. cbn. by rewrite <- app_assoc.
Qed.

Lemma split_chars_at (sep : ascii) (cur l1 l2 : list ascii) :
  sep ∉ l1 →
  split_chars sep cur (l1 ++ sep :: l2)
  = (rev cur ++ l1) :: split_chars sep [] l2.
Proof.
  revert cur. induction l1 as [|c l1 IH]; intros cur Hsep.
  - cbn. rewrite bool_decide_eq_true_2 by done. by rewrite app_nil_r.
  - apply not_elem_of_cons in Hsep as [Hc Hl]. cbn [split_chars app].
    rewrite bool_decide_eq_false_2 by done.
    rewrite IH by done. cbn. by rewrite <- app_assoc.
Qed.

Lemma decimal_no_sep (sep : ascii) (x : string) :
  decimal_char sep = false →
  Forall (λ c, decimal_char c = true) (chars x) → sep ∉ chars x.
Proof.
  intros Hsep Hx Hin. rewrite Forall_forall in Hx.
  specialize (Hx sep Hin). congruence.
Qed.

End Decimal.

(* ===================================================================== *)
(** ** From a card back to its shipment *)
(* ===================================================================== *)

Section Buttons.
Context {rt : Builtins} {cfg : Config}.

Lemma callback_index_decimal (word x : string) (n : Z) :
  "_"%char ∉ chars word →
  Forall (λ c, decimal_char c = true) (chars x) →
  py_int x = Some n →
  callback_index (word +:+ "_" +:+ x) = inr n.
Proof.
  intros Hword Hx Hint. unfold callback_index, split.
  rewrite !chars_app. change (chars "_") with ["_"%char]. cbn [app].
  rewrite split_chars_at by done.
  rewrite split_chars_no_sep by (by apply decimal_no_sep).
  cbn. rewrite of_chars_chars. unfold int. by rewrite Hint.
Qed.

(** X17.  the buttons of a card address its shipment.  When [int] reads back
    the decimal numeral of [idx], the approve and reject buttons that the
    card of the shipment at position [idx] carries (callback data
    "approve_idx" and "reject_idx") set the approval flag of exactly that
    shipment, to true and to false, and the data of its ticket button
    decode to [idx]. *)
Theorem card_buttons_address_shipment (st : store) (user_id : Z)
    (idx : nat) :
  py_int (fmt_int (Z.of_nat idx)) = Some (Z.of_nat idx) →
  (idx < length (shipments (session_of st user_id)))%nat →
  (∀ v : bool,
     (handle_callback user_id
        ((if v then "approve_" else "reject_") +:+ fmt_int (Z.of_nat idx))
        st).1.1
     = <[user_id := set_shipments
           (alter (insert "paymentApproved" (JBool v)) idx
              (shipments (session_of st user_id)))
           (session_of st user_id)]> st)
  ∧ startswith ("ticket_" +:+ fmt_int (Z.of_nat idx)) "ticket_" = true
  ∧ callback_index ("ticket_" +:+ fmt_int (Z.of_nat idx))
    = inr (Z.of_nat idx).
Proof.
  intros Hint Hlt.
  destruct (fmt_int_decimal (Z.of_nat idx)) as [_ Hdec].
  assert (∀ word,
            "_"%char ∉ chars word →
            callback_index (word +:+ "_" +:+ fmt_int (Z.of_nat idx))
            = inr (Z.of_nat idx)) as Hdecode
    by (intros; by apply callback_index_decimal).
  split; [|split].
  - intros v.
    rewrite <- (Nat2Z.id idx) at 2.
    apply handle_callback_sets; [| |lia].
    + destruct v; [left | right]; repeat split;
        unfold startswith; rewrite chars_app;
        first [ rewrite drop_prefix_app; reflexivity | reflexivity ].
    + destruct v.
      * apply (Hdecode "approve"). intros Hin. by not_listed.
      * apply (Hdecode "reject"). intros Hin. by not_listed.
  - unfold startswith. by rewrite chars_app, drop_prefix_app.
  - apply (Hdecode "ticket"). intros Hin. by not_listed.
Qed.

End Buttons.

(* ===================================================================== *)
(** ** Writing and reading the allow-list *)
(* ===================================================================== *)

Section AllowList.
Context {rt : Builtins} {cfg : Config}.

Lemma split_join (xs : list string) :
  xs ≠ [] →
  Forall (λ x, ","%char ∉ chars x) xs →
  split (join "," xs) "," = xs.
Proof.
  intros Hne Hxs. unfold split.
  induction Hxs as [|x xs Hx Hxs IH]; [done|].
  destruct xs as [|y xs].
  - cbn [join]. rewrite split_chars_no_sep by done. cbn.
    by rewrite of_chars_chars.
  - change (join "," (x :: y :: xs)) with (x +:+ "," +:+ join "," (y :: xs)).
    rewrite !chars_app. change (chars ",") with [","%char]. cbn [app].
    rewrite split_chars_at by done. cbn [map app rev].
    rewrite of_chars_chars. f_equal. by apply IH.
Qed.

Lemma decimal_printable (c : ascii) :
  decimal_char c = true → printable c = true.
Proof.
  unfold decimal_char, printable. intros Hc.
  apply orb_true_iff in Hc as [Hc | Hc].
  - apply bool_decide_eq_true in Hc. by subst.
  - apply andb_true_iff in Hc as [Hlo Hhi].
    apply Nat.leb_le in Hlo, Hhi. apply andb_true_iff.
    split; apply Nat.leb_le; lia.
Qed.

Lemma strip_decimal (x : string) :
  x ≠ EmptyString →
  Forall (λ c, decimal_char c = true) (chars x) →
  strip x = x.
Proof.
  intros Hne Hx.
  rewrite <- (append_nil_r x) at 1.
  apply (strip_framed EmptyString x EmptyString); auto using blank_empty.
  - destruct x as [|a t]; [done|]. exists a, t. split; [done|].
    apply decimal_printable. by inversion Hx.
  - destruct (exists_last (l := chars x)) as (l & z & Hlast).
    { intros Hnil. apply Hne. by rewrite <- (of_chars_chars x), Hnil. }
    exists (of_chars l), z. split.
    + rewrite <- (of_chars_chars x), Hlast.
      rewrite <- (of_chars_chars (of_chars l +:+ String z EmptyString)).
      by rewrite chars_app, chars_of_chars.
    + apply decimal_printable. rewrite Hlast in Hx.
      apply Forall_app in Hx as [_ Hz]. by inversion Hz.
Qed.

Lemma parse_ids_decimal (ids : list Z) :
  (∀ n, n ∈ ids → py_int (fmt_int n) = Some n) →
  parse_ids (fmt_int <$> ids) = inr ids.
Proof.
  induction ids as [|n ids IH]; intros Hint; [done|].
  destruct (fmt_int_decimal n) as [Hne Hdec].
  cbn [fmap list_fmap parse_ids].
  rewrite strip_decimal by done.
  rewrite bool_decide_eq_false_2 by done.
  unfold int. rewrite Hint by left.
  change (list_fmap Z string fmt_int ids) with (fmt_int <$> ids).
  rewrite IH; [done|]. intros m Hm. apply Hint. by right.
Qed.

(** X18.  the allow-list reads back.  When [ALLOWED_USERS] is the decimal
    numerals of a non-empty list of user ids joined by commas, and [int]
    reads each numeral back, the membership check raises nothing and
    allows exactly the users of the list. *)
Theorem is_allowed_listed (ids : list Z) (user_id : Z) :
  ids ≠ [] →
  ALLOWED_USERS = join "," (fmt_int <$> ids) →
  (∀ n, n ∈ ids → py_int (fmt_int n) = Some n) →
  is_allowed user_id = inr (bool_decide (user_id ∈ ids)).
Proof.
  intros Hne Hlist Hint. unfold is_allowed. rewrite Hlist.
  assert (join "," (fmt_int <$> ids) ≠ EmptyString) as Hfull.
  { destruct ids as [|n ids]; [done|].
    destruct (fmt_int_decimal n) as [Hn _].
    destruct ids as [|m ids]; cbn [fmap list_fmap join]; [done|].
    destruct (fmt_int n); [done | discriminate]. }
  rewrite bool_decide_eq_false_2 by done.
  rewrite split_join.
  - by rewrite parse_ids_decimal.
  - by destruct ids.
  - apply Forall_fmap, Forall_true. intros n. cbn.
    apply decimal_no_sep; [reflexivity | apply fmt_int_decimal].
Qed.

End AllowList.

(* ===================================================================== *)
(** ** The text of the engine's message *)
(* ===================================================================== *)

Section MessageText.

Lemma message_text_from (content : list block) (start : string) :
  fold_left (λ text b, match b with
                       | TextBlock t => text +:+ t
                       | OtherBlock => text
                       end) content start
  = start +:+ message_text content.
Proof.
  unfold message_text. revert start.
  induction content as [|b content IH]; intros start.
  - cbn. by rewrite append_nil_r.
  - cbn [fold_left]. destruct b as [t|].
    + rewrite IH, (IH (EmptyString +:+ t)). by rewrite append_assoc.
    + by rewrite IH.
Qed.

(** X19.  the message text.  The text handed to the parser is the texts of
    the text blocks of the message, in order; blocks without text
    contribute nothing, wherever they stand. *)
Theorem message_text_app (c1 c2 : list block) :
  message_text (c1 ++ c2) = message_text c1 +:+ message_text c2
  ∧ message_text (c1 ++ OtherBlock :: c2) = message_text (c1 ++ c2)
  ∧ (∀ t, message_text (TextBlock t :: c2) = t +:+ message_text c2).
Proof.
  assert (∀ a b, message_text (a ++ b) = message_text a +:+ message_text b)
    as Happ.
  { intros a b. unfold message_text at 1.
    rewrite fold_left_app. rewrite message_text_from.
    f_equal. }
  split; [apply Happ | split].
  - change (OtherBlock :: c2) with ([OtherBlock] ++ c2).
    by rewrite !Happ.
  - intros t. change (TextBlock t :: c2) with ([TextBlock t] ++ c2).
    by rewrite Happ.
Qed.

End MessageText.

(* ===================================================================== *)
(** ** More worked examples *)
(* ===================================================================== *)

Section MoreExamples.
Import Sample SampleMore.

(** User 8 sends a photo and clears; the session of user 7 stays. *)
Lemma replay_isolated_witness :
  replay (rt := Sample.runtime) (cfg := everyone)
    [(8, Photo (Some "x")); (8, Clear)] reviewing !! 7
  = reviewing !! 7.
Proof.
  apply (replay_isolated (rt := Sample.runtime) (cfg := everyone)).
  repeat constructor; by vm_compute.
Defined.

(** Two tickets for two shipments. *)
Lemma cmd_tickets_sends_all_witness :
  cmd_tickets (rt := Sample.runtime) (cfg := everyone) 7 reviewing_two
  = (reviewing_two,
     imap (ticket_reply (rt := Sample.runtime))
       (shipments (session_of reviewing_two 7)),
     inr tt).
Proof.
  assert (is_allowed (rt := Sample.runtime) (cfg := everyone) 7 = inr true)
    as Hallowed by (vm_compute; reflexivity).
  assert (shipments (session_of reviewing_two 7) ≠ []) as Hsome.
  { change (shipments (session_of reviewing_two 7))
      with [one_shipment; second_shipment].
    discriminate. }
  assert (Forall shipment_ok (shipments (session_of reviewing_two 7))) as Hok.
  { change (shipments (session_of reviewing_two 7))
      with [one_shipment; second_shipment].
    repeat constructor; eexists; vm_compute; reflexivity. }
  exact (cmd_tickets_sends_all (rt := Sample.runtime) (cfg := everyone)
           reviewing_two 7 Hallowed Hsome Hok).
Defined.

(** An object followed by a number. *)
Lemma cmd_done_stops_at_non_object_witness :
  cmd_done (rt := Sample.runtime) (cfg := everyone) 7
    (EngineMessage [TextBlock "[{}, 5]"]) collecting_one
  = (<[7 := set_shipments (augmented <$> object_prefix [JObj ∅; JInt 5])
              (session_of collecting_one 7)]> collecting_one,
     [ReplyText
        (analyzing (Z.of_nat (length (images (session_of collecting_one 7)))))
        Plain;
      EditText recognition_failed],
     inr tt).
Proof.
  assert (is_allowed (rt := Sample.runtime) (cfg := everyone) 7 = inr true)
    as Hallowed by (vm_compute; reflexivity).
  assert (images (session_of collecting_one 7) ≠ []) as Himages
    by (by vm_compute).
  assert (process_invoices (rt := Sample.runtime)
            (EngineMessage [TextBlock "[{}, 5]"]) = inr [JObj ∅; JInt 5])
    as Hreply by (vm_compute; reflexivity).
  exact (cmd_done_stops_at_non_object (rt := Sample.runtime) (cfg := everyone)
           collecting_one 7 _ _ Hallowed Himages Hreply eq_refl).
Defined.

(** A draft whose payment URL is the number 5. *)
Lemma cmd_done_card_failure_witness :
  cmd_done (rt := SampleMore.runtime) (cfg := everyone) 7
    (EngineMessage [TextBlock url_text]) collecting_one
  = (<[7 := {| images := images (session_of collecting_one 7);
               phase_of := review;
               shipments := augmented <$> [{[ "paymentUrl" := JInt 5 ]}] |}]>
       collecting_one,
     [ReplyText
        (analyzing (Z.of_nat (length (images (session_of collecting_one 7)))))
        Plain;
      EditText recognition_failed],
     inr tt).
Proof.
  assert (is_allowed (rt := SampleMore.runtime) (cfg := everyone) 7 = inr true)
    as Hallowed by (vm_compute; reflexivity).
  assert (images (session_of collecting_one 7) ≠ []) as Himages
    by (by vm_compute).
  assert (process_invoices (rt := SampleMore.runtime)
            (EngineMessage [TextBlock url_text])
          = inr (JObj <$> [{[ "paymentUrl" := JInt 5 ]}]))
    as Hreply by (vm_compute; reflexivity).
  assert (({[ "paymentUrl" := JInt 5 ]} : dict) !! "paymentUrl"
          = Some (JInt 5)) as Hurl by (vm_compute; reflexivity).
  exact (cmd_done_card_failure (rt := SampleMore.runtime) (cfg := everyone)
           collecting_one 7 _ _ [] (JInt 5) Hallowed Himages Hreply Hurl
           eq_refl (λ u H, eq_ind (JInt 5)
                             (λ v, match v with JInt _ => True | _ => False end)
                             I (JStr u) H)).
Defined.

(** Two more photos after the first. *)
Lemma photos_accumulate_witness :
  session_of
    (replay (rt := Sample.runtime) (cfg := everyone)
       ((λ img, (7, Photo (Some img))) <$> ["b"; "c"]) collecting_one) 7
  = set_images (images (session_of collecting_one 7) ++ ["b"; "c"])
      (session_of collecting_one 7).
Proof.
  assert (is_allowed (rt := Sample.runtime) (cfg := everyone) 7 = inr true)
    as Hallowed by (vm_compute; reflexivity).
  assert (phase_of (session_of collecting_one 7) = collecting) as Hphase
    by (vm_compute; reflexivity).
  exact (photos_accumulate (rt := Sample.runtime) (cfg := everyone)
           collecting_one 7 ["b"; "c"] Hallowed Hphase).
Defined.

(** A failed download during review. *)
Lemma handle_photo_download_fails_witness :
  handle_photo (rt := Sample.runtime) (cfg := everyone) 7 None reviewing
  = (<[7 := {| images := []; phase_of := collecting; shipments := [] |}]>
       reviewing,
     [], inl TelegramError).
Proof.
  assert (is_allowed (rt := Sample.runtime) (cfg := everyone) 7 = inr true)
    as Hallowed by (vm_compute; reflexivity).
  assert (phase_of (session_of reviewing 7) = review) as Hphase
    by (vm_compute; reflexivity).
  destruct (handle_photo_download_fails (rt := Sample.runtime)
              (cfg := everyone) reviewing 7 Hallowed) as [_ Hreview].
  exact (Hreview Hphase).
Defined.

(** [/order 1 ABC 123]. *)
Lemma cmd_order_sets_witness :
  cmd_order (rt := Sample.runtime) (cfg := everyone) 7 ["1"; "ABC"; "123"]
    reviewing
  = (<[7 := set_shipments
             (alter (insert "orderNumber" (JStr (join " " ["ABC"; "123"])))
                (Z.to_nat (1 - 1)) (shipments (session_of reviewing 7)))
             (session_of reviewing 7)]> reviewing,
     [ReplyText
        ("✅ Посылка " +:+ fmt_int (1 - 1 + 1) +:+
         ": номер заказа установлен → `" +:+ join " " ["ABC"; "123"] +:+ "`")
        Markdown],
     inr tt).
Proof.
  assert (is_allowed (rt := Sample.runtime) (cfg := everyone) 7 = inr true)
    as Hallowed by (vm_compute; reflexivity).
  assert (0 ≤ 1 - 1 < Z.of_nat (length (shipments (session_of reviewing 7))))
    as Hrange by (by vm_compute).
  destruct (cmd_order_sets (rt := Sample.runtime) (cfg := everyone)
              reviewing 7 1 "1" "ABC" ["123"] Hallowed eq_refl Hrange)
    as [Hrun _].
  exact Hrun.
Defined.

(** [/order] alone, and [/order x ABC]. *)
Lemma cmd_order_malformed_witness :
  cmd_order (rt := Sample.runtime) (cfg := everyone) 7 [] reviewing
  = (touch 7 reviewing,
     [ReplyText ("Формат: `/order 1 ABC123`" +:+ nl +:+
                 "где 1 — номер посылки, ABC123 — номер заказа") Markdown],
     inr tt)
  ∧ cmd_order (rt := Sample.runtime) (cfg := everyone) 7 ["x"; "ABC"] reviewing
    = (touch 7 reviewing,
       [ReplyText "❌ Неверный формат. Используйте: `/order 1 ABC123`"
          Markdown],
       inr tt).
Proof.
  assert (is_allowed (rt := Sample.runtime) (cfg := everyone) 7 = inr true)
    as Hallowed by (vm_compute; reflexivity).
  destruct (cmd_order_malformed (rt := Sample.runtime) (cfg := everyone)
              reviewing 7 Hallowed) as (Husage & Hformat & _).
  split.
  - apply Husage. cbn. lia.
  - apply Hformat. reflexivity.
Defined.

(** Rejecting shipment 2 and numbering shipment 1, in both orders. *)
Lemma order_and_approval_commute_witness :
  (cmd_order (rt := Sample.runtime) (cfg := everyone) 7 ["1"; "ABC"]
     (handle_callback (rt := Sample.runtime) 7 "reject_1"
        reviewing_two).1.1).1.1
  = (handle_callback (rt := Sample.runtime) 7 "reject_1"
       (cmd_order (rt := Sample.runtime) (cfg := everyone) 7 ["1"; "ABC"]
          reviewing_two).1.1).1.1.
Proof.
  assert (approval_button "reject_1" false) as Hbutton
    by (right; repeat split; vm_compute; reflexivity).
  assert (length (shipments (session_of reviewing_two 7)) = 2%nat) as Hlen
    by reflexivity.
  assert (0 ≤ 1 < Z.of_nat (length (shipments (session_of reviewing_two 7))))
    as Hrange by (rewrite Hlen; lia).
  assert (0 ≤ 1 - 1
          < Z.of_nat (length (shipments (session_of reviewing_two 7))))
    as Hrange' by (rewrite Hlen; lia).
  assert (is_allowed (rt := Sample.runtime) (cfg := everyone) 7 = inr true)
    as Hallowed by (vm_compute; reflexivity).
  assert (callback_index (rt := Sample.runtime) "reject_1" = inr 1) as Hidx
    by (vm_compute; reflexivity).
  exact (order_and_approval_commute (rt := Sample.runtime) (cfg := everyone)
           reviewing_two 7 1 1 "reject_1" "1" "ABC" [] false
           Hbutton Hidx Hrange Hallowed eq_refl Hrange').
Defined.

(** The ticket button of shipment 1. *)
Lemma ticket_button_reads_witness :
  handle_callback (rt := Sample.runtime) 7 "ticket_0" reviewing
  = (touch 7 reviewing,
     [AnswerQuery;
      ReplyText
        ("📝 *Тикет — Посылка " +:+ fmt_int (0 + 1) +:+ ":*" +:+
         nl +:+ nl +:+ "`" +:+
         generate_ticket (rt := Sample.runtime) one_shipment (JBool true)
         +:+ "`") Markdown],
     inr tt).
Proof.
  assert (startswith "ticket_0" "ticket_" = true) as Hticket
    by (vm_compute; reflexivity).
  assert (callback_index (rt := Sample.runtime) "ticket_0" = inr 0) as Hidx
    by (vm_compute; reflexivity).
  assert (one_shipment !! "paymentApproved" = Some (JBool true)) as Hflag
    by (vm_compute; reflexivity).
  destruct (ticket_button_reads (rt := Sample.runtime) reviewing 7 0
              "ticket_0" one_shipment (JBool true) Hticket Hidx
              ltac:(lia) eq_refl Hflag) as [Hrun _].
  exact Hrun.
Defined.

(** The button "reject_-1" on a two-shipment session. *)
Lemma button_negative_index_witness :
  (handle_callback (rt := Sample.runtime) 7 "reject_-1" reviewing_two).1.1
  = <[7 := set_shipments
             (alter (insert "paymentApproved" (JBool false))
                (Z.to_nat
                   (-1 + Z.of_nat
                           (length (shipments (session_of reviewing_two 7)))))
                (shipments (session_of reviewing_two 7)))
             (session_of reviewing_two 7)]> reviewing_two.
Proof.
  assert (approval_button "reject_-1" false) as Hbutton
    by (right; repeat split; vm_compute; reflexivity).
  assert (callback_index (rt := Sample.runtime) "reject_-1" = inr (-1))
    as Hidx by (vm_compute; reflexivity).
  assert (length (shipments (session_of reviewing_two 7)) = 2%nat) as Hlen
    by reflexivity.
  destruct (button_negative_index (rt := Sample.runtime) reviewing_two 7 (-1)
              "reject_-1" false Hbutton Hidx ltac:(lia)) as [Hwrap _].
  apply Hwrap. rewrite Hlen. lia.
Defined.


(** The allow-list "1,abc". *)
Lemma malformed_allow_list_raises_witness :
  is_allowed (rt := Sample.runtime) (cfg := users_1_abc) 1 = inl ValueError
  ∧ cmd_start (rt := Sample.runtime) (cfg := users_1_abc) 1 reviewing
    = (reviewing, [], inl ValueError).
Proof.
  assert ("abc" ∈ split (ALLOWED_USERS (Config := users_1_abc)) ",") as Hin
    by (vm_compute; listed).
  assert (strip "abc" ≠ EmptyString) as Hsome by (by vm_compute).
  assert (py_int (Builtins := Sample.runtime) (strip "abc") = None) as Hnone
    by (vm_compute; reflexivity).
  destruct (malformed_allow_list_raises (rt := Sample.runtime)
              (cfg := users_1_abc) "abc" reviewing 1 None EngineRaises []
              Hin Hsome Hnone) as (Hcheck & Hstart & _).
  auto.
Defined.


(** The reject button of the second card. *)
Lemma card_buttons_address_shipment_witness :
  (handle_callback (rt := Sample.runtime) 7
     ("reject_" +:+ fmt_int (Z.of_nat 1)) reviewing_two).1.1
  = <[7 := set_shipments
             (alter (insert "paymentApproved" (JBool false)) 1%nat
                (shipments (session_of reviewing_two 7)))
             (session_of reviewing_two 7)]> reviewing_two.
Proof.
  assert (py_int (Builtins := Sample.runtime) (fmt_int (Z.of_nat 1))
          = Some (Z.of_nat 1)) as Hint by (vm_compute; reflexivity).
  assert (1 < length (shipments (session_of reviewing_two 7)))%nat as Hlt
    by (change (length (shipments (session_of reviewing_two 7))) with 2%nat;
        lia).
  destruct (card_buttons_address_shipment (rt := Sample.runtime)
              reviewing_two 7 1%nat Hint Hlt) as [Hpress _].
  exact (Hpress false).
Defined.

(** The allow-list "1,22". *)
Lemma is_allowed_listed_witness :
  is_allowed (rt := Sample.runtime) (cfg := users_1_22) 22
  = inr (bool_decide (22 ∈ [1; 22]))
  ∧ is_allowed (rt := Sample.runtime) (cfg := users_1_22) 2
    = inr (bool_decide (2 ∈ [1; 22])).
Proof.
  assert ([1; 22] ≠ ([] : list Z)) as Hne by discriminate.
  assert (ALLOWED_USERS (Config := users_1_22)
          = join "," (fmt_int <$> [1; 22])) as Hlist
    by (vm_compute; reflexivity).
  assert (∀ n, n ∈ [1; 22] →
               py_int (Builtins := Sample.runtime) (fmt_int n) = Some n)
    as Hint.
  { intros n Hn.
    repeat (apply elem_of_cons in Hn as [->|Hn]; [vm_compute; reflexivity|]).
    by apply elem_of_nil in Hn. }
  split;
    apply (is_allowed_listed (rt := Sample.runtime) (cfg := users_1_22)
             [1; 22] _ Hne Hlist Hint).
Defined.

End MoreExamples.
